(** * Profile-picture upload and serve: a shallow embedding of the handlers

    Sources embedded here:
    - [server/api/users/[id]/profile.get.ts]  (the serve handler)
    - the upload handler that follows it in the same source file
    - [server/api/users/index.get.ts]        (the list-users handler)

    The handlers run on Node.  Three pieces of the platform are modelled
    next to them, because the handlers' results are decided by them:
    [path.join] (after the POSIX half of Node's [lib/path.js]), the part of
    [fs] the handlers call, and the [user] table behind the Prisma client.
    The session verifier stays opaque: a request carries what
    [auth.api.getSession] returned for it. *)

From Stdlib Require Import Ascii.
From stdpp Require Import base option list strings gmap.

(** ** Node's [path] module, POSIX flavour *)

Module Path.

Definition is_sep (c : ascii) : bool := Ascii.eqb c "/"%char.

(** Put a character in front of the first segment of a segment list. *)
Definition cons_head (c : ascii) (l : list string) : list string :=
  match l with
  | [] => [String c ""]
  | h :: t => String c h :: t
  end.

(** The segments of a path: the pieces between separators.  A path with
    [n] separators has [n + 1] segments, some of them possibly empty. *)
Fixpoint split (s : string) : list string :=
  match s with
  | "" => [""]
  | String c r => if is_sep c then "" :: split r else cons_head c (split r)
  end.

Definition isAbsolute (s : string) : bool :=
  match s with
  | String c _ => is_sep c
  | "" => false
  end.

Fixpoint trailingSeparator (s : string) : bool :=
  match s with
  | "" => false
  | String c "" => is_sep c
  | String _ r => trailingSeparator r
  end.

(** One round of [normalizeString]'s loop, taken at the end of a segment.
    [res] is the result built so far, most recent segment first:
    - an empty segment ([lastSlash === i - 1]) and ["."] ([dots === 1])
      are skipped;
    - [".."] ([dots === 2]) removes the last segment unless there is none
      or it is itself [".."]; in that case [".."] is kept only when
      [allowAboveRoot];
    - any other segment is appended. *)
Definition step (allowAboveRoot : bool) (res : list string) (seg : string)
  : list string :=
  if String.eqb seg "" then res
  else if String.eqb seg "." then res
  else if String.eqb seg ".." then
    match res with
    | last :: rest =>
        if String.eqb last ".."
        then (if allowAboveRoot then ".." :: res else res)
        else rest
    | [] => if allowAboveRoot then [".."] else []
    end
  else seg :: res.

Definition segments (allowAboveRoot : bool) (path : string) : list string :=
  fold_left (step allowAboveRoot) (split path) [].

Definition normalizeString (path : string) (allowAboveRoot : bool) : string :=
  String.concat "/" (rev (segments allowAboveRoot path)).

(** [posix.normalize] *)
Definition normalize (path : string) : string :=
  if String.eqb path "" then "."
  else
    let isAbs := isAbsolute path in
    let trailing := trailingSeparator path in
    let p := normalizeString path (negb isAbs) in
    if String.eqb p "" then
      (if isAbs then "/" else if trailing then "./" else ".")
    else
      let p := if trailing then p +:+ "/" else p in
      if isAbs then "/" +:+ p else p.

Definition nonempty (s : string) : bool := negb (String.eqb s "").

(** [posix.join]: the non-empty arguments, joined by the separator and
    normalized; ["."] when there is none. *)
Definition join (args : list string) : string :=
  match filter (fun a => nonempty a = true) args with
  | [] => "."
  | parts => normalize (String.concat "/" parts)
  end.

(** *** Vocabulary for stating facts about paths *)

Fixpoint has_sep (s : string) : bool :=
  match s with
  | "" => false
  | String c r => is_sep c || has_sep r
  end.

(** A segment that [normalizeString] keeps as a name. *)
Definition plain (t : string) : Prop :=
  t ≠ "" ∧ t ≠ "." ∧ t ≠ ".." ∧ has_sep t = false.

(** A segment that can occur in a result of [normalizeString]. *)
Definition kept (t : string) : Prop :=
  t ≠ "" ∧ t ≠ "." ∧ has_sep t = false.

(** The last lines of [normalize], as a function of the segments kept. *)
Definition render (abs trailing : bool) (st : list string) : string :=
  let p := String.concat "/" st in
  if String.eqb p "" then
    (if abs then "/" else if trailing then "./" else ".")
  else
    let p := if trailing then p +:+ "/" else p in
    if abs then "/" +:+ p else p.

End Path.

(** ** Values *)

(** A Node [Buffer]: a sequence of bytes. *)
Definition Buffer : Type := list Byte.byte.

(** JavaScript truthiness, for the values the handlers test.  A string is
    falsy exactly when it is empty; [undefined] and [null] are falsy; a
    [Buffer] is an object, and every object is truthy, whatever it holds. *)
Definition truthy_string (s : string) : bool := Path.nonempty s.

Definition truthy_opt_string (v : option string) : bool :=
  match v with
  | Some s => truthy_string s
  | None => false
  end.

Definition truthy_buffer (_ : Buffer) : bool := true.

(** [v || d] on strings. *)
Definition or_else (v : option string) (d : string) : string :=
  match v with
  | Some s => if truthy_string s then s else d
  | None => d
  end.

(** A row of the [user] table, with the fields the handlers select. *)
Module User.
Record t : Type := mk {
  id : string;
  email : string;
  name : string;
  emailVerified : bool;
  image : option string
}.

Definition with_image (v : option string) (u : t) : t :=
  {| id := id u; email := email u; name := name u;
     emailVerified := emailVerified u; image := v |}.
End User.

(** What [auth.api.getSession] returns when there is a session: the handlers
    use only [session.user.id]. *)
Module Session.
Record t : Type := mk { user_id : string }.
End Session.

(** One part of a multipart body, as [readMultipartFormData] yields it. *)
Module MultiPartData.
Record t : Type := mk {
  name : option string;
  filename : option string;
  type : option string;
  data : Buffer
}.
End MultiPartData.

(** The argument of [createError]. *)
Record H3ErrorInput : Type := {
  statusCode : nat;
  statusMessage : option string;
  message : option string
}.

Inductive Exception : Type :=
  | H3Error (e : H3ErrorInput)               (* createError({...}) *)
  | FsError (code : string) (path : string)  (* thrown by node:fs *)
  | PrismaError (code : string).             (* thrown by the Prisma client *)

Definition createError (code : nat) (msg : string) : Exception :=
  H3Error {| statusCode := code; statusMessage := Some msg; message := None |}.

Inductive Response : Type :=
  | Json (status : nat) (message : string)
  | Stream (status : nat) (contentType : string) (body : Buffer)
  | Failed (e : Exception).

(** The status line the client sees.  An exception that is not an H3 error
    has no mapping of its own and ends as a generic server error. *)
Definition status_of (r : Response) : nat :=
  match r with
  | Json s _ => s
  | Stream s _ _ => s
  | Failed (H3Error e) => statusCode e
  | Failed _ => 500
  end.

(** ** The world the handlers act on *)

Inductive node : Type :=
  | File (content : Buffer)
  | Dir.

(** - [users]: the rows of the [user] table, in the order [findMany]
      returns them;
    - [disk]: the entries of the file system, keyed by path;
    - [pending]: the writes handed to [fs.writeFile] whose callback has
      not run yet, oldest first;
    - [uncaught]: errors raised inside such a callback.  They are raised
      on a turn of the event loop, outside any handler. *)
Record World : Type := mkWorld {
  users : list User.t;
  disk : gmap string node;
  pending : list (string * Buffer);
  uncaught : list Exception
}.

(** How a write handed to [fs.writeFile] ends.  The write opens the file
    (creating it, or emptying it), writes the buffer and closes the file:
    - [Written]: the whole buffer is in the file;
    - [NotOpened code]: the open failed; no file was created or emptied;
    - [Truncated code n]: the file was opened and the write failed after
      [n] bytes ([n = 0] when the disk is full).
    The outcome is the operating system's verdict. *)
Inductive Outcome : Type :=
  | Written
  | NotOpened (code : string)
  | Truncated (code : string) (n : nat).

(** What the host supplies during one request: [process.env], the value
    [crypto.randomUUID()] returns, whether the operating system refuses
    to create directories (permissions, read-only volume, ...), and what
    the event loop does while the upload handler awaits the record update:
    [loop] lists the pending writes whose callback it runs there, each by
    its position among the writes still pending (oldest first) and with
    its outcome. *)
Record Host : Type := mkHost {
  UPLOAD_STORAGE_PATH : option string;
  randomUUID : string;
  mkdir_refused : bool;
  loop : list (nat * Outcome)
}.

(** ** Effects: state and exceptions *)

Inductive Result (A : Type) : Type :=
  | Ok (a : A)
  | Throw (e : Exception).
Arguments Ok {A} a.
Arguments Throw {A} e.

Definition M (A : Type) : Type := World -> Result A * World.

Definition ret {A} (a : A) : M A := fun w => (Ok a, w).

Definition throw {A} (e : Exception) : M A := fun w => (Throw e, w).

Definition bind {A B} (m : M A) (k : A -> M B) : M B :=
  fun w =>
    match m w with
    | (Ok a, w') => k a w'
    | (Throw e, w') => (Throw e, w')
    end.

Notation "'let*' x ':=' m 'in' k" := (bind m (fun x => k))
  (at level 10, x name, m at level 100, k at level 200).
Notation "m ';;;' k" := (bind m (fun _ => k))
  (at level 100, k at level 200, right associativity).

(** What the framework answers for a handler run from world [w]. *)
Definition respond (h : M Response) (w : World) : Response * World :=
  match h w with
  | (Ok r, w') => (r, w')
  | (Throw e, w') => (Failed e, w')
  end.

(** ** [node:fs] *)

Module fs.

Definition set_disk (d : gmap string node) (w : World) : World :=
  mkWorld (users w) d (pending w) (uncaught w).

Definition existsSync (p : string) : M bool :=
  fun w => (Ok (bool_decide (is_Some (disk w !! p))), w).

(** The path itself and the paths of the directories above it, outermost
    first: ["a/b/c"] gives ["a"], ["a/b"], ["a/b/c"]. *)
Definition ancestors (p : string) : list string :=
  let segs := Path.split p in
  filter (fun a => Path.nonempty a = true)
         (map (fun k => String.concat "/" (take k segs))
              (seq 1 (List.length segs))).

(** Create the missing directories of [ps]; [None] when one of them is a
    file. *)
Fixpoint mkdirs (ps : list string) (d : gmap string node)
  : option (gmap string node) :=
  match ps with
  | [] => Some d
  | p :: rest =>
      match d !! p with
      | Some (File _) => None
      | Some Dir => mkdirs rest d
      | None => mkdirs rest (<[p := Dir]> d)
      end
  end.

(** [fs.mkdirSync(p, { recursive: true })] *)
Definition mkdirSync (host : Host) (p : string) : M unit :=
  fun w =>
    if mkdir_refused host then (Throw (FsError "EACCES" p), w)
    else match mkdirs (ancestors p) (disk w) with
         | Some d => (Ok tt, set_disk d w)
         | None => (Throw (FsError "ENOTDIR" p), w)
         end.

(** [fs.writeFile(p, data, callback)], the callback form: the call hands
    the write to the event loop and returns [undefined] at once.  From then
    on the write proceeds on its own: it may end while the handler is still
    awaiting something else, or after the handler has answered.  Its
    outcome reaches only the callback ([complete] below).  Awaiting the
    [undefined] it returned resumes the handler at once, before the event
    loop takes any turn. *)
Definition writeFile (p : string) (data : Buffer) : M unit :=
  fun w =>
    (Ok tt, mkWorld (users w) (disk w) (pending w ++ [(p, data)]) (uncaught w)).

(** [sendStream(event, fs.createReadStream(p))]: the whole content of the
    file, or the stream's error. *)
Definition readStream (p : string) : M Buffer :=
  fun w =>
    match disk w !! p with
    | Some (File b) => (Ok b, w)
    | Some Dir => (Throw (FsError "EISDIR" p), w)
    | None => (Throw (FsError "ENOENT" p), w)
    end.

End fs.

(** A turn of the event loop: the [i]-th pending write ends with outcome
    [o] and its callback [(err) => { if (err) throw err }] runs.  On a
    failure the callback throws the error, outside any handler.  Pending
    writes end in any order, at any await of a handler or between two
    requests. *)
Definition complete (i : nat) (o : Outcome) (w : World) : World :=
  match pending w !! i with
  | None => w
  | Some (p, data) =>
      match o with
      | Written =>
          mkWorld (users w) (<[p := File data]> (disk w))
            (delete i (pending w)) (uncaught w)
      | NotOpened code =>
          mkWorld (users w) (disk w)
            (delete i (pending w)) (uncaught w ++ [FsError code p])
      | Truncated code n =>
          mkWorld (users w) (<[p := File (take n data)]> (disk w))
            (delete i (pending w)) (uncaught w ++ [FsError code p])
      end
  end.

(** Several turns in a row. *)
Definition run_loop (steps : list (nat * Outcome)) (w : World) : World :=
  fold_left (fun w s => complete (fst s) (snd s) w) steps w.

(** The turn in which the oldest pending write ends: written in full, or
    refused at the open. *)
Definition settle (ok : bool) (w : World) : World :=
  complete 0 (if ok then Written else NotOpened "EIO") w.

(** [await m], where [m] goes through the event loop: [m] takes effect and,
    before its result reaches the handler, the event loop takes the turns
    of [loop host].  The handlers' other awaits come before they touch the
    disk; turns taken there are turns taken before the request. *)
Definition await {A} (host : Host) (m : M A) : M A :=
  fun w =>
    match m w with
    | (r, w1) => (r, run_loop (loop host) w1)
    end.

(** ** The Prisma client, [user] model *)

Module prisma.

Definition has_id (k : string) (u : User.t) : bool := String.eqb (User.id u) k.

(** [prisma.user.findUnique({ where: { id } })] *)
Definition findUnique (k : string) : M (option User.t) :=
  fun w => (Ok (find (has_id k) (users w)), w).

(** [prisma.user.findMany()] *)
Definition findMany : M (list User.t) :=
  fun w => (Ok (users w), w).

Definition set_image (k : string) (v : string) (u : User.t) : User.t :=
  if has_id k u then User.with_image (Some v) u else u.

(** [prisma.user.update({ where: { id }, data: { image } })]: throws when
    no row has the identifier. *)
Definition update (k : string) (v : string) : M User.t :=
  fun w =>
    match find (has_id k) (users w) with
    | None => (Throw (PrismaError "P2025"), w)
    | Some u =>
        (Ok (User.with_image (Some v) u),
         mkWorld (map (set_image k v) (users w)) (disk w) (pending w) (uncaught w))
    end.

End prisma.

(** ** The handlers *)

Definition storage_root (host : Host) : string :=
  or_else (UPLOAD_STORAGE_PATH host) "public/images".

(** *** Serve: [server/api/users/[id]/profile.get.ts] *)

Record ServeEvent : Type := mkServe {
  serve_session : option Session.t;   (* auth.api.getSession({ headers }) *)
  serve_id : option string            (* getRouterParam(event, 'id') *)
}.

Definition serve (host : Host) (event : ServeEvent) : M Response :=
  match serve_session event with
  | None => throw (createError 401 "Unauthorized")
  | Some _ =>
      if negb (truthy_opt_string (serve_id event))
      then throw (createError 400 "Missing userId")
      else
        let userId := default "" (serve_id event) in
        let* record := prisma.findUnique userId in
        let imagePath := record ≫= User.image in
        let filePath := Path.join [storage_root host; or_else imagePath "null"] in
        let* found := fs.existsSync filePath in
        if negb found
        then throw (createError 404 "File not found")
        else
          let* body := fs.readStream filePath in
          ret (Stream 200 "application/octet-stream" body)
  end.

(** *** Upload *)

Record UploadEvent : Type := mkUpload {
  upload_session : option Session.t;              (* auth.api.getSession({ headers }) *)
  upload_form : option (list MultiPartData.t)     (* readMultipartFormData(event) *)
}.

Definition is_file_field (i : MultiPartData.t) : bool :=
  match MultiPartData.name i with
  | Some n => String.eqb n "file"
  | None => false
  end.

Definition upload_dir (host : Host) (ownerId : string) : string :=
  Path.join [storage_root host; "users"; ownerId; "images"].

Definition upload_file (host : Host) (ownerId : string) : string :=
  Path.join [upload_dir host ownerId; randomUUID host].

Definition image_path (host : Host) (ownerId : string) : string :=
  Path.join ["users"; ownerId; "images"; randomUUID host].

(** [if (!fs.existsSync(dirPath)) fs.mkdirSync(dirPath, { recursive: true })] *)
Definition ensure_dir (host : Host) (dirPath : string) : M unit :=
  let* found := fs.existsSync dirPath in
  if negb found then fs.mkdirSync host dirPath else ret tt.

Definition upload (host : Host) (event : UploadEvent) : M Response :=
  match upload_session event with
  | None => throw (createError 401 "Unauthorized")
  | Some session =>
      match upload_form event with
      | None => throw (createError 400 "No form data")
      | Some form =>
          match find is_file_field form with
          | None => throw (createError 400 "File missing")
          | Some file =>
              if negb (truthy_buffer (MultiPartData.data file))
              then throw (createError 400 "File missing")
              else
                let ownerId := Session.user_id session in
                let dirPath := upload_dir host ownerId in
                ensure_dir host dirPath ;;;
                let filePath := upload_file host ownerId in
                let* taken := fs.existsSync filePath in
                if taken
                then throw (H3Error {| statusCode := 400;
                                       statusMessage := None;
                                       message := Some "Image already exists." |})
                else
                  fs.writeFile filePath (MultiPartData.data file) ;;;
                  let* addedImage :=
                    await host (prisma.update ownerId (image_path host ownerId)) in
                  ret (Json 201 "Added profile picture to logged in user.")
          end
      end
  end.

(** *** List users: [server/api/users/index.get.ts] *)

Module Redacted.
Record t : Type := mk {
  id : string;
  email : string;
  name : string;
  emailVerified : bool;
  image : bool
}.
End Redacted.

(** [{ ...user, image: user.image != null }] *)
Definition redact (user : User.t) : Redacted.t :=
  {| Redacted.id := User.id user;
     Redacted.email := User.email user;
     Redacted.name := User.name user;
     Redacted.emailVerified := User.emailVerified user;
     Redacted.image := bool_decide (User.image user <> None) |}.

Definition list_users : M (list Redacted.t) :=
  let* users := prisma.findMany in
  let redacted := map redact users in
  ret redacted.

(** ** Vocabulary for the statements below *)


(** Two rows that differ at most in the string recorded as image path. *)
Definition same_but_image_path (u v : User.t) : Prop :=
  User.id u = User.id v ∧ User.email u = User.email v ∧
  User.name u = User.name v ∧ User.emailVerified u = User.emailVerified v ∧
  (User.image u = None ↔ User.image v = None).

(** What a row looks like in the list-users response: the same identifier,
    email, name and verification flag, and instead of the image path only
    whether there is one. *)
Definition redacted_of (u : User.t) (r : Redacted.t) : Prop :=
  Redacted.id r = User.id u ∧ Redacted.email r = User.email u ∧
  Redacted.name r = User.name u ∧
  Redacted.emailVerified r = User.emailVerified u ∧
  (Redacted.image r = true ↔ User.image u ≠ None).

(** The world after an upload has been answered and the event loop has
    then taken the turns [steps]. *)
Definition after_upload (host : Host) (event : UploadEvent)
    (steps : list (nat * Outcome)) (w : World) : World :=
  run_loop steps (snd (respond (upload host event) w)).

(** The image path recorded for a user identifier, if any. *)
Definition recorded_image (k : string) (w : World) : option string :=
  find (prisma.has_id k) (users w) ≫= User.image.

(** ** A scenario: user [u1] uploads three bytes *)

Module Scenario.

(** The event loop takes no turn while the upload awaits the record
    update. *)
Definition host : Host :=
  mkHost None "0b5c2a3e-7d4f-4e1a-9c6b-2f8e1d3a5b7c" false [].

(** The same host, on which the write ends during that await: written in
    full, or cut short by a full disk. *)
Definition host_written : Host :=
  mkHost None "0b5c2a3e-7d4f-4e1a-9c6b-2f8e1d3a5b7c" false [(0, Written)].

Definition host_disk_full : Host :=
  mkHost None "0b5c2a3e-7d4f-4e1a-9c6b-2f8e1d3a5b7c" false
    [(0, Truncated "ENOSPC" 0)].

Definition u1 : User.t := User.mk "u1" "u1@example.org" "User One" true None.
Definition u2 : User.t := User.mk "u2" "u2@example.org" "User Two" false None.

Definition world : World := mkWorld [u1; u2] ∅ [] [].

Definition bytes : Buffer := [Byte.x01; Byte.x02; Byte.x03].

Definition part (data : Buffer) : MultiPartData.t :=
  MultiPartData.mk (Some "file") (Some "me.png") (Some "image/png") data.

Definition session : Session.t := Session.mk "u1".

Definition request (data : Buffer) : UploadEvent :=
  mkUpload (Some session) (Some [part data]).

(** The world after the upload has been answered. *)
Definition uploaded : World := snd (respond (upload host (request bytes)) world).

Definition blob : string :=
  "public/images/users/u1/images/0b5c2a3e-7d4f-4e1a-9c6b-2f8e1d3a5b7c".

Definition recorded : string :=
  "users/u1/images/0b5c2a3e-7d4f-4e1a-9c6b-2f8e1d3a5b7c".

(** The same table, with another string recorded as [u1]'s image path. *)
Definition moved : World :=
  mkWorld [User.with_image (Some "elsewhere/u1.png") u1; u2] ∅ [] [].

End Scenario.

(** ** The dashboard page ([<script setup>] of the page that lists users) *)

Module Dashboard.

(** A browser [File]: its name, its media type and its content. *)
Record File : Type := mkFile {
  file_name : string;
  file_type : string;
  file_bytes : Buffer
}.

(** The refs of the page.  [users] is the [data] of
    [useFetch('/api/users')]: [None] while there is none. *)
Record Page : Type := mkPage {
  users : option (list Redacted.t);
  selectedFile : option File;
  imagePreview : string;
  isUploading : bool;
  isModalOpen : bool
}.

(** [user.image ? 'api/users/' + user.id + '/profile' : undefined] *)
Definition getImageLink (user : Redacted.t) : option string :=
  if Redacted.image user
  then Some ("api/users/" +:+ Redacted.id user +:+ "/profile")
  else None.

(** [handleImageUpload]: [files] is [target.files].  The second component
    is the file handed to [reader.readAsDataURL], if any. *)
Definition handleImageUpload (files : option (list File)) (page : Page)
  : Page * option File :=
  match files with
  | None => (page, None)
  | Some [] => (page, None)
  | Some (file :: _) =>
      if negb (String.prefix "image/" (file_type file))
      then (page, None)
      else (mkPage (users page) (Some file) (imagePreview page)
              (isUploading page) (isModalOpen page),
            Some file)
  end.

(** [reader.onload]: [result] is the data URL the reader produced. *)
Definition reader_onload (result : string) (page : Page) : Page :=
  mkPage (users page) (selectedFile page) result
    (isUploading page) (isModalOpen page).

Definition openModal (page : Page) : Page :=
  mkPage (users page) (selectedFile page) (imagePreview page)
    (isUploading page) true.

Definition closeModal (page : Page) : Page :=
  mkPage (users page) (selectedFile page) (imagePreview page)
    (isUploading page) false.

(** [formData.append('file', selectedFile.value)], as it reaches
    [readMultipartFormData]: one part named [file].  A file without media
    type travels as [application/octet-stream]. *)
Definition formData (file : File) : list MultiPartData.t :=
  [MultiPartData.mk (Some "file") (Some (file_name file))
     (Some (if Path.nonempty (file_type file) then file_type file
            else "application/octet-stream"))
     (file_bytes file)].

(** [$fetch] resolves for a status from 200 to 299 and throws otherwise. *)
Definition fetch_ok (r : Response) : bool :=
  (200 <=? status_of r)%nat && (status_of r <? 300)%nat.

(** [useFetch('/api/users')], and again at [refreshNuxtData()]. *)
Definition fetch_users (w : World) : option (list Redacted.t) * World :=
  match list_users w with
  | (Ok us, w1) => (Some us, w1)
  | (Throw _, w1) => (None, w1)
  end.

(** [updatePfp].  [session] is what the server's session verifier makes of
    the cookies the browser sends along. *)
Definition updatePfp (host : Host) (session : option Session.t)
    (page : Page) (w : World) : Page * World :=
  match selectedFile page with
  | None => (page, w)
  | Some file =>
      (* isUploading.value = true; try { await $fetch(...) *)
      let '(r, w1) := respond (upload host (mkUpload session (Some (formData file)))) w in
      if fetch_ok r then
        (* await refreshNuxtData(); reset state; finally *)
        let '(us, w2) := fetch_users w1 in
        (mkPage us None "" false false, w2)
      else
        (* catch: console.error; finally *)
        (mkPage (users page) (selectedFile page) (imagePreview page)
           false (isModalOpen page), w1)
  end.

(** The selected file, if there is one, has an image media type. *)
Definition selection_ok (page : Page) : Prop :=
  match selectedFile page with
  | Some file => String.prefix "image/" (file_type file) = true
  | None => True
  end.

End Dashboard.

(** ** Snippets of the guides *)

(** The serve handler as [docs/file_upload_and_serve.md] prints it: no
    session check, and an explicit 404 when no image path is recorded. *)
Definition serve_documented (host : Host) (event : ServeEvent) : M Response :=
  if negb (truthy_opt_string (serve_id event))
  then throw (createError 400 "Missing userId")
  else
    let userId := default "" (serve_id event) in
    let* record := prisma.findUnique userId in
    let imagePath := record ≫= User.image in
    if negb (truthy_opt_string imagePath)
    then throw (createError 404 "No image found")
    else
      let filePath := Path.join [storage_root host; default "" imagePath] in
      let* found := fs.existsSync filePath in
      if negb found
      then throw (createError 404 "File not found")
      else
        let* body := fs.readStream filePath in
        ret (Stream 200 "application/octet-stream" body).

(** The route middleware [app/middleware/auth.global.ts] as
    [docs/better_auth.md] prints it. *)
Module AuthMiddleware.

Inductive Outcome : Type :=
  | Continue                      (* the middleware returns nothing *)
  | NavigateTo (path : string).   (* return navigateTo(path) *)

Definition auth_global (session : option Session.t) (to_path : string) : Outcome :=
  match session with
  | Some _ =>
      if String.eqb to_path "/auth" then NavigateTo "/" else Continue
  | None =>
      if negb (String.eqb to_path "/auth") then NavigateTo "/auth" else Continue
  end.

End AuthMiddleware.

(** * Properties *)

(** ** [path.join] on examples *)

Example join_upload_path :
  Path.join ["public/images"; "users"; "u1"; "images"; "abc"]
  = "public/images/users/u1/images/abc".
Proof. vm_compute. reflexivity. Qed.

Example join_dots : Path.join ["a//b/./c/"; "../d"; ""; ".."] = "a/b".
Proof. vm_compute. reflexivity. Qed.

Example join_absolute_root : Path.join ["/x"; "../../y/"] = "/y/".
Proof. vm_compute. reflexivity. Qed.

Example join_above : Path.join [".."; "../a"; "."] = "../../a".
Proof. vm_compute. reflexivity. Qed.

Example join_nothing : Path.join [""; ""] = ".".
Proof. vm_compute. reflexivity. Qed.

(** ** Facts about [path.join] *)

Section PathFacts.
Import Path.

Lemma split_nonnil s : split s ≠ [].
Proof.
  induction s as [|c r IH]; simpl; [done|].
  destruct (is_sep c); [done|]. by destruct (split r).
Qed.

Lemma split_app_sep a b : split (a +:+ String "/" b) = split a ++ split b.
Proof.
  induction a as [|c r IH]; simpl; [done|].
  rewrite IH. destruct (is_sep c); [done|].
  destruct (split r) eqn:E; [by apply split_nonnil in E|done].
Qed.

Lemma split_no_sep s : has_sep s = false → split s = [s].
Proof.
  induction s as [|c r IH]; simpl; [done|].
  intros [Hc Hr]%orb_false_iff. rewrite Hc, (IH Hr). done.
Qed.

Lemma split_segments_no_sep s : Forall (λ t, has_sep t = false) (split s).
Proof.
  induction s as [|c r IH]; simpl; [by repeat constructor|].
  destruct (is_sep c) eqn:Hc; [by constructor|].
  destruct IH as [|h t Hh Ht]; simpl; constructor; simpl; rewrite ?Hc; done.
Qed.

Lemma split_concat l :
  l ≠ [] → Forall (λ t, has_sep t = false) l →
  split (String.concat "/" l) = l.
Proof.
  induction l as [|x [|y r] IH]; intros Hne Hl; [done| |].
  - simpl. apply split_no_sep. by inversion Hl.
  - change (String.concat "/" (x :: y :: r))
      with (x +:+ String "/" (String.concat "/" (y :: r))).
    rewrite split_app_sep, IH; [|done|by inversion Hl].
    rewrite split_no_sep; [done|by inversion Hl].
Qed.

Lemma isAbsolute_app a b : a ≠ "" → isAbsolute (a +:+ b) = isAbsolute a.
Proof. by destruct a. Qed.

Lemma trailingSeparator_app a b :
  b ≠ "" → trailingSeparator (a +:+ b) = trailingSeparator b.
Proof.
  intros Hb. induction a as [|c r IH]; [done|].
  simpl. destruct (r +:+ b) eqn:E; [|done].
  destruct r; simpl in E; [done|discriminate].
Qed.

Lemma no_sep_not_trailing t : has_sep t = false → trailingSeparator t = false.
Proof.
  induction t as [|c r IH]; simpl; [done|].
  intros [Hc Hr]%orb_false_iff. destruct r; [done|by apply IH].
Qed.

Lemma app_empty_r p : p +:+ "" = p.
Proof.
  induction p as [|c p IH]; [done|].
  change (String c (p +:+ "") = String c p). by rewrite IH.
Qed.

Lemma app_empty_l p : "" +:+ p = p.
Proof. done. Qed.

Lemma app_nonempty a b : a ≠ "" → a +:+ b ≠ "".
Proof. by destruct a. Qed.

Lemma concat_nonempty x l : x ≠ "" → String.concat "/" (x :: l) ≠ "".
Proof. destruct l; simpl; [done|]. apply app_nonempty. Qed.

Lemma concat_not_trailing l :
  Forall kept l → trailingSeparator (String.concat "/" l) = false.
Proof.
  induction l as [|x [|y r] IH]; intros Hl; [done| |].
  - simpl. apply no_sep_not_trailing. inversion Hl as [|?? Hx]. apply Hx.
  - change (String.concat "/" (x :: y :: r))
      with (x +:+ String "/" (String.concat "/" (y :: r))).
    inversion Hl as [|?? _ Hr]; subst.
    rewrite trailingSeparator_app; [|done].
    specialize (IH Hr).
    assert (String.concat "/" (y :: r) ≠ "") as Hne.
    { apply concat_nonempty. inversion Hr as [|?? Hy]. apply Hy. }
    revert IH Hne. generalize (String.concat "/" (y :: r)).
    intros [|c s] IH Hne; done.
Qed.

Lemma concat_not_absolute x l :
  kept x → isAbsolute (String.concat "/" (x :: l)) = false.
Proof.
  intros (Hx & _ & Hs).
  assert (isAbsolute x = false) as Hax.
  { destruct x; [done|]. simpl in *. by apply orb_false_iff in Hs as [? _]. }
  destruct l; simpl; [done|]. by rewrite isAbsolute_app.
Qed.

(** *** The segment stack *)

Lemma seg_cases x : x = "" ∨ x = "." ∨ x = ".." ∨ (x ≠ "" ∧ x ≠ "." ∧ x ≠ "..").
Proof.
  destruct (decide (x = "")); [by left|].
  destruct (decide (x = ".")); [by right; left|].
  destruct (decide (x = "..")); [by right; right; left|].
  by right; right; right.
Qed.

Lemma step_name m s t : t ≠ "" → t ≠ "." → t ≠ ".." → step m s t = t :: s.
Proof.
  intros H1 H2 H3. unfold step.
  destruct (String.eqb_spec t ""); [done|].
  destruct (String.eqb_spec t "."); [done|].
  by destruct (String.eqb_spec t "..").
Qed.

Lemma step_up m s t : t ≠ ".." → step m (t :: s) ".." = s.
Proof.
  intros H. unfold step. simpl. by destruct (String.eqb_spec t "..").
Qed.

Lemma step_kept m s t :
  Forall kept s → has_sep t = false → Forall kept (step m s t).
Proof.
  intros Hs Ht.
  destruct (seg_cases t) as [->|[->|[->|(H1 & H2 & H3)]]]; try done.
  - unfold step; simpl. destruct s as [|l r].
    + destruct m; by repeat constructor.
    + destruct (String.eqb l ".."); [|by inversion Hs].
      destruct m; [|done]. by constructor.
  - rewrite step_name by done. by constructor.
Qed.

Lemma fold_kept m l s :
  Forall (λ t, has_sep t = false) l → Forall kept s →
  Forall kept (fold_left (step m) l s).
Proof.
  revert s. induction l as [|x l IH]; intros s Hl Hs; [done|].
  inversion Hl; subst. simpl. apply IH; [done|]. by apply step_kept.
Qed.

Lemma segments_kept m x : Forall kept (segments m x).
Proof. apply fold_kept; [apply split_segments_no_sep|constructor]. Qed.

Lemma step_plain s t :
  Forall plain s → has_sep t = false → Forall plain (step false s t).
Proof.
  intros Hs Ht.
  destruct (seg_cases t) as [->|[->|[->|(H1 & H2 & H3)]]]; try done.
  - unfold step; simpl. destruct s as [|l r]; [done|].
    destruct (String.eqb l ".."); [done|by inversion Hs].
  - rewrite step_name by done. by constructor.
Qed.

Lemma segments_plain x : Forall plain (segments false x).
Proof.
  unfold segments. generalize (split_segments_no_sep x).
  assert (Forall plain []) as Hnil by constructor.
  revert Hnil. generalize (@nil string).
  induction (split x) as [|t l IH]; intros s Hs Hl; [done|].
  inversion Hl; subst. simpl. apply IH; [|done]. by apply step_plain.
Qed.

(** Feeding a stack of plain names back rebuilds it. *)
Lemma fold_plain m st s :
  Forall plain st → fold_left (step m) (rev st) s = st ++ s.
Proof.
  induction st as [|t st IH]; intros Hst; [done|].
  inversion Hst as [|?? (H1 & H2 & H3 & _) Hr]; subst.
  simpl. rewrite fold_left_app, IH by done. simpl. by apply step_name.
Qed.

(** Feeding the result of a relative normalization to any later
    normalization has the effect of feeding the original segments. *)
Lemma fold_segments_relative l m s :
  Forall (λ t, has_sep t = false) l →
  fold_left (step m) (rev (fold_left (step true) l [])) s
  = fold_left (step m) l s.
Proof.
  induction l as [|x l IH] using rev_ind; intros Hl; [done|].
  apply Forall_app in Hl as [Hl Hx]. inversion Hx as [|?? Hsep _]; subst.
  rewrite !fold_left_app. simpl. rewrite <- (IH Hl).
  pose proof (fold_kept true l [] Hl (Forall_nil_2 _)) as HN.
  revert HN. generalize (fold_left (step true) l []). intros N HN.
  destruct (seg_cases x) as [->|[->|[->|(H1 & H2 & H3)]]]; try done.
  - destruct N as [|t N]; [done|].
    destruct (decide (t = "..")) as [->|Hne].
    + change (step true (".." :: N) "..") with (".." :: ".." :: N).
      change (rev (".." :: ".." :: N)) with (rev (".." :: N) ++ [".."]).
      by rewrite fold_left_app.
    + rewrite step_up by done. simpl. rewrite fold_left_app. simpl.
      inversion HN as [|?? (Ht1 & Ht2 & _) _]; subst.
      rewrite (step_name m _ t) by done. by rewrite step_up.
  - rewrite !step_name by done. simpl. rewrite fold_left_app. simpl.
    by rewrite step_name.
Qed.

Lemma fold_segments m x :
  fold_left (step m) (rev (segments m x)) [] = segments m x.
Proof.
  destruct m.
  - apply fold_segments_relative, split_segments_no_sep.
  - rewrite fold_plain; [apply app_nil_r|apply segments_plain].
Qed.

(** *** The last lines of [normalize] *)

Lemma normalize_render x :
  x ≠ "" →
  normalize x
  = render (isAbsolute x) (trailingSeparator x)
           (rev (segments (negb (isAbsolute x)) x)).
Proof.
  intros Hx. unfold normalize. by destruct (String.eqb_spec x "").
Qed.

Lemma render_cons abs trailing x l :
  kept x →
  render abs trailing (x :: l)
  = (if abs then "/" else "")
      +:+ String.concat "/" (x :: l) +:+ (if trailing then "/" else "").
Proof.
  intros Hx. unfold render.
  pose proof (concat_nonempty x l (proj1 Hx)) as Hne.
  destruct (String.eqb_spec (String.concat "/" (x :: l)) ""); [done|].
  revert Hne. generalize (String.concat "/" (x :: l)). intros p Hp.
  destruct abs, trailing; simpl; by rewrite ?app_empty_r.
Qed.

Section Render.
Context (abs trailing : bool) (st : list string) (Hst : Forall kept st).

Lemma render_nonempty : render abs trailing st ≠ "".
Proof.
  destruct st as [|x l]; [by destruct abs, trailing|].
  inversion Hst as [|?? Hx _]; subst. rewrite render_cons by done.
  pose proof (concat_nonempty x l (proj1 Hx)) as Hne.
  destruct abs; [done|]. rewrite app_empty_l. by apply app_nonempty.
Qed.

Lemma render_absolute : isAbsolute (render abs trailing st) = abs.
Proof.
  destruct st as [|x l]; [by destruct abs, trailing|].
  inversion Hst as [|?? Hx _]; subst. rewrite render_cons by done.
  destruct abs; [done|]. rewrite app_empty_l.
  rewrite isAbsolute_app by by apply concat_nonempty, Hx.
  by apply concat_not_absolute.
Qed.

Lemma render_trailing :
  abs = false ∨ st ≠ [] →
  trailingSeparator (render abs trailing st) = trailing.
Proof.
  intros Hcase. destruct st as [|x l].
  - destruct Hcase as [->|]; [by destruct trailing|done].
  - inversion Hst as [|?? Hx _]; subst. rewrite render_cons by done.
    pose proof (concat_nonempty x l (proj1 Hx)) as Hne.
    pose proof (concat_not_trailing (x :: l) Hst) as Htr.
    revert Hne Htr. generalize (String.concat "/" (x :: l)). intros p Hp Htr.
    rewrite trailingSeparator_app by by apply app_nonempty.
    destruct trailing.
    + by rewrite trailingSeparator_app.
    + by rewrite app_empty_r.
Qed.

Lemma render_fold m s :
  fold_left (step m) (split (render abs trailing st)) s
  = fold_left (step m) st s.
Proof.
  destruct st as [|x l]; [by destruct abs, trailing|].
  inversion Hst as [|?? Hx _]; subst. rewrite render_cons by done.
  assert (split (String.concat "/" (x :: l)) = x :: l) as Hsplit.
  { apply split_concat; [done|].
    eapply Forall_impl; [exact Hst|]. by intros ? (_ & _ & ?). }
  revert Hsplit. generalize (String.concat "/" (x :: l)). intros p Hp.
  assert (split (p +:+ (if trailing then "/" else ""))
          = (x :: l) ++ (if trailing then [""] else [])) as Hq.
  { destruct trailing.
    - by rewrite split_app_sep, Hp.
    - by rewrite app_empty_r, app_nil_r. }
  assert (∀ q, fold_left (step m) (split ((if abs then "/" else "") +:+ q)) s
               = fold_left (step m) (split q) s) as Hpre.
  { intros q. by destruct abs. }
  rewrite Hpre, Hq, fold_left_app. by destruct trailing.
Qed.

End Render.

(** *** [normalize] *)

Lemma normalize_nonempty x : normalize x ≠ "".
Proof.
  destruct (decide (x = "")) as [->|Hx]; [done|].
  rewrite normalize_render by done.
  apply render_nonempty. apply Forall_rev, segments_kept.
Qed.

Lemma normalize_absolute x : x ≠ "" → isAbsolute (normalize x) = isAbsolute x.
Proof.
  intros Hx. rewrite normalize_render by done.
  apply render_absolute. apply Forall_rev, segments_kept.
Qed.

Lemma normalize_trailing x :
  isAbsolute x = false →
  trailingSeparator (normalize x) = trailingSeparator x.
Proof.
  intros Hx. destruct (decide (x = "")) as [->|Hne]; [done|].
  rewrite normalize_render by done. rewrite Hx.
  apply render_trailing; [|by left].
  apply Forall_rev, segments_kept.
Qed.

Lemma normalize_fold x m s :
  x ≠ "" →
  fold_left (step m) (split (normalize x)) s
  = fold_left (step m) (rev (segments (negb (isAbsolute x)) x)) s.
Proof.
  intros Hx. rewrite normalize_render by done.
  apply render_fold. apply Forall_rev, segments_kept.
Qed.

Lemma normalize_ext x y :
  x ≠ "" → y ≠ "" →
  isAbsolute x = isAbsolute y →
  trailingSeparator x = trailingSeparator y →
  segments (negb (isAbsolute x)) x = segments (negb (isAbsolute x)) y →
  normalize x = normalize y.
Proof.
  intros Hx Hy Ha Ht Hs.
  rewrite !normalize_render by done. by rewrite <- Ha, <- Ht, Hs.
Qed.

(** Normalizing the left part of a path first changes nothing. *)
Lemma normalize_left x u :
  x ≠ "" →
  normalize (normalize x +:+ String "/" u) = normalize (x +:+ String "/" u).
Proof.
  intros Hx. pose proof (normalize_nonempty x) as Hn.
  apply normalize_ext; try by apply app_nonempty.
  - by rewrite !isAbsolute_app, normalize_absolute.
  - by rewrite !trailingSeparator_app.
  - rewrite isAbsolute_app, normalize_absolute by done.
    unfold segments. rewrite !split_app_sep, !fold_left_app.
    rewrite normalize_fold by done. by rewrite fold_segments.
Qed.

(** Normalizing a relative right part first changes nothing. *)
Lemma normalize_right a y :
  a ≠ "" → y ≠ "" → isAbsolute y = false →
  normalize (a +:+ String "/" (normalize y)) = normalize (a +:+ String "/" y).
Proof.
  intros Ha Hy Hrel. pose proof (normalize_nonempty y) as Hn.
  assert (∀ z, z ≠ "" →
            trailingSeparator (a +:+ String "/" z) = trailingSeparator z) as Htr.
  { intros z Hz. rewrite trailingSeparator_app by done. by destruct z. }
  apply normalize_ext; try by apply app_nonempty.
  - by rewrite !isAbsolute_app.
  - by rewrite !Htr, normalize_trailing.
  - unfold segments. rewrite !split_app_sep, !fold_left_app.
    rewrite normalize_fold by done. rewrite Hrel. simpl.
    apply fold_segments_relative, split_segments_no_sep.
Qed.

Lemma normalize_idem x : normalize (normalize x) = normalize x.
Proof.
  destruct (decide (x = "")) as [->|Hx]; [done|].
  pose proof (segments_kept (negb (isAbsolute x)) x) as Hk.
  rewrite (normalize_render x) at 2 by done.
  rewrite (normalize_render (normalize x)) by apply normalize_nonempty.
  rewrite normalize_absolute by done.
  assert (segments (negb (isAbsolute x)) (normalize x)
          = segments (negb (isAbsolute x)) x) as ->.
  { unfold segments at 1. rewrite normalize_fold by done. apply fold_segments. }
  destruct (segments (negb (isAbsolute x)) x) as [|t st] eqn:E.
  - destruct (isAbsolute x) eqn:Ha; [done|].
    by rewrite normalize_trailing.
  - f_equal. rewrite normalize_render by done. apply render_trailing.
    + apply Forall_rev, segments_kept.
    + right. rewrite E. simpl. by destruct (rev st).
Qed.

End PathFacts.

(** *** [join] *)

Lemma nonempty_true a : Path.nonempty a = true ↔ a ≠ "".
Proof.
  unfold Path.nonempty. destruct (String.eqb_spec a ""); naive_solver.
Qed.

Lemma join_cons a l :
  a ≠ "" →
  Path.join (a :: l)
  = Path.normalize
      (String.concat "/" (a :: filter (λ a, Path.nonempty a = true) l)).
Proof.
  intros Ha. unfold Path.join.
  by rewrite filter_cons_True by by apply nonempty_true.
Qed.

Lemma string_app_assoc a b c : (a +:+ b) +:+ c = a +:+ (b +:+ c).
Proof.
  induction a as [|ch a IH]; [done|].
  change (String ch ((a +:+ b) +:+ c) = String ch (a +:+ b +:+ c)).
  by rewrite IH.
Qed.

Lemma concat_snoc x l u :
  String.concat "/" ((x :: l) ++ [u]) = String.concat "/" (x :: l) +:+ String "/" u.
Proof.
  revert x. induction l as [|y r IH]; intros x; [done|].
  change (x +:+ "/" +:+ String.concat "/" ((y :: r) ++ [u])
          = (x +:+ "/" +:+ String.concat "/" (y :: r)) +:+ String "/" u).
  rewrite IH. by rewrite !string_app_assoc.
Qed.

Lemma join_nonempty l : Path.join l ≠ "".
Proof.
  unfold Path.join. destruct (filter _ l); [done|apply normalize_nonempty].
Qed.

Lemma join_absolute a l :
  a ≠ "" → Path.isAbsolute (Path.join (a :: l)) = Path.isAbsolute a.
Proof.
  intros Ha. rewrite join_cons by done.
  rewrite normalize_absolute by by apply concat_nonempty.
  destruct (filter _ l); [done|]. by apply isAbsolute_app.
Qed.

(** Joining in two steps, left part first. *)
Lemma join_flat_left a l u :
  a ≠ "" → Path.join [Path.join (a :: l); u] = Path.join (a :: l ++ [u]).
Proof.
  intros Ha. pose proof (join_nonempty (a :: l)) as Hj.
  rewrite (join_cons (Path.join (a :: l))), (join_cons a (l ++ [u])) by done.
  rewrite filter_app. rewrite (join_cons a l) in * by done.
  destruct (decide (u = "")) as [->|Hu].
  - simpl. rewrite app_nil_r. apply normalize_idem.
  - rewrite (filter_cons_True _ u) by by apply nonempty_true.
    rewrite filter_nil. rewrite app_comm_cons, concat_snoc.
    apply normalize_left. by apply concat_nonempty.
Qed.

(** Joining in two steps, relative right part first. *)
Lemma join_flat_right a b l :
  a ≠ "" → b ≠ "" → Path.isAbsolute b = false →
  Path.join [a; Path.join (b :: l)] = Path.join (a :: b :: l).
Proof.
  intros Ha Hb Hrel. pose proof (join_nonempty (b :: l)) as Hj.
  rewrite (join_cons a [_]), (join_cons a (b :: l)) by done.
  rewrite !filter_cons_True by by apply nonempty_true.
  rewrite filter_nil. rewrite (join_cons b l) by done.
  set (y := String.concat "/" (b :: filter _ l)).
  change (Path.normalize (a +:+ String "/" (Path.normalize y))
          = Path.normalize (a +:+ String "/" y)).
  apply normalize_right; [done|by apply concat_nonempty|].
  unfold y. destruct (filter _ l) as [|c r]; [done|].
  change (Path.isAbsolute (b +:+ "/" +:+ String.concat "/" (c :: r)) = false).
  by rewrite isAbsolute_app.
Qed.

(** On plain names, [join] is concatenation with separators. *)
Lemma join_plain l :
  l ≠ [] → Forall Path.plain l → Path.join l = String.concat "/" l.
Proof.
  intros Hne Hl. unfold Path.join.
  assert (Forall Path.kept l) as Hk.
  { eapply Forall_impl; [exact Hl|]. by intros ? (?&?&?&?). }
  assert (filter (λ a, Path.nonempty a = true) l = l) as ->.
  { clear Hne Hk. induction Hl as [|x l' Hx _ IH]; [done|].
    rewrite filter_cons_True by by apply nonempty_true, Hx. by rewrite IH. }
  destruct l as [|x l']; [done|].
  inversion Hk as [|?? Hx _]; subst.
  pose proof (concat_nonempty x l' (proj1 Hx)) as Hc.
  rewrite normalize_render by done.
  rewrite (concat_not_absolute x l' Hx), (concat_not_trailing _ Hk).
  unfold Path.segments. rewrite split_concat; [|done|].
  2:{ eapply Forall_impl; [exact Hl|]. by intros ? (?&?&?&?). }
  rewrite <- (rev_involutive (x :: l')) at 1.
  rewrite fold_plain by by apply Forall_rev.
  rewrite app_nil_r, rev_involutive.
  unfold Path.render. by destruct (String.eqb_spec (String.concat "/" (x :: l')) "").
Qed.

(** ** Facts about the platform model *)

Lemma storage_root_nonempty host : storage_root host ≠ "".
Proof.
  unfold storage_root, or_else, truthy_string.
  destruct (UPLOAD_STORAGE_PATH host) as [s|]; [|done].
  destruct (Path.nonempty s) eqn:E; [by apply nonempty_true|done].
Qed.

(** The path under which an upload writes is the path a serve resolves
    from the recorded image path. *)
Lemma blob_path host host' ownerId :
  storage_root host' = storage_root host →
  Path.join [storage_root host'; image_path host ownerId]
  = upload_file host ownerId.
Proof.
  intros ->. pose proof (storage_root_nonempty host) as Hr.
  unfold image_path, upload_file, upload_dir.
  rewrite join_flat_right by done.
  by rewrite join_flat_left.
Qed.

Lemma image_path_truthy host ownerId :
  or_else (Some (image_path host ownerId)) "null" = image_path host ownerId.
Proof.
  unfold or_else, truthy_string.
  pose proof (join_nonempty ["users"; ownerId; "images"; randomUUID host]) as Hj.
  apply nonempty_true in Hj. unfold image_path. by rewrite Hj.
Qed.

Lemma has_id_set_image k v u : prisma.has_id k (prisma.set_image k v u) = prisma.has_id k u.
Proof. unfold prisma.set_image. by destruct (prisma.has_id k u) eqn:E. Qed.

Lemma find_set_image k v l u :
  find (prisma.has_id k) l = Some u →
  find (prisma.has_id k) (map (prisma.set_image k v) l)
  = Some (User.with_image (Some v) u).
Proof.
  induction l as [|x l IH]; [done|]. simpl. rewrite has_id_set_image.
  destruct (prisma.has_id k x) eqn:E; [|done].
  intros [= ->]. unfold prisma.set_image. by rewrite E.
Qed.

Lemma ensure_dir_frame host dirPath w r w' :
  ensure_dir host dirPath w = (r, w') →
  w' = fs.set_disk (disk w') w.
Proof.
  unfold ensure_dir, bind, fs.existsSync, fs.mkdirSync, ret. destruct w as [us d ps un].
  simpl. destruct (bool_decide _); simpl; [by intros [= _ <-]|].
  destruct (mkdir_refused host); [by intros [= _ <-]|].
  destruct (fs.mkdirs _ _); by intros [= _ <-].
Qed.

Lemma ensure_dir_throws host dirPath w e w' :
  ensure_dir host dirPath w = (Throw e, w') →
  status_of (Failed e) = 500.
Proof.
  unfold ensure_dir, bind, fs.existsSync, fs.mkdirSync, ret.
  destruct (bool_decide _); simpl; [done|].
  destruct (mkdir_refused host); [by intros [= <- _]|].
  destruct (fs.mkdirs _ _); [done|by intros [= <- _]].
Qed.

(** ** The event loop *)


Lemma complete_users i o w : users (complete i o w) = users w.
Proof.
  unfold complete. destruct (pending w !! i) as [[p data]|]; [|done].
  by destruct o.
Qed.

Lemma run_loop_users steps w : users (run_loop steps w) = users w.
Proof.
  revert w. induction steps as [|[i o] steps IH]; intros w; [done|].
  simpl. by rewrite IH, complete_users.
Qed.

Lemma complete_pending i o w x : x ∈ pending (complete i o w) → x ∈ pending w.
Proof.
  unfold complete. destruct (pending w !! i) as [[p data]|]; [|done].
  destruct o; simpl; apply list_elem_of_delete_inv.
Qed.

Lemma run_loop_pending steps w x :
  x ∈ pending (run_loop steps w) → x ∈ pending w.
Proof.
  revert w. induction steps as [|[i o] steps IH]; intros w; [done|].
  simpl. intros Hin. by eapply complete_pending, IH.
Qed.

(** A turn changes the disk only at the path of the write that ends. *)
Lemma complete_disk_other i o w p :
  (∀ q b, (q, b) ∈ pending w → q ≠ p) →
  disk (complete i o w) !! p = disk w !! p.
Proof.
  intros Hfree. unfold complete.
  destruct (pending w !! i) as [[q data]|] eqn:Hi; [|done].
  assert (q ≠ p) as Hne.
  { eapply Hfree. eapply list_elem_of_lookup_2. exact Hi. }
  destruct o; simpl; by rewrite ?lookup_insert_ne.
Qed.

Lemma run_loop_disk_other steps w p :
  (∀ q b, (q, b) ∈ pending w → q ≠ p) →
  disk (run_loop steps w) !! p = disk w !! p.
Proof.
  revert w. induction steps as [|[i o] steps IH]; intros w Hfree; [done|].
  simpl. rewrite IH.
  - by apply complete_disk_other.
  - intros q b Hin. eapply Hfree, complete_pending, Hin.
Qed.



(** Where every pending write for a path carries the same buffer, the path
    holds what it held or a file with the first bytes of that buffer. *)
Lemma run_loop_disk_at steps w p data :
  (∀ b, (p, b) ∈ pending w → b = data) →
  disk (run_loop steps w) !! p = disk w !! p ∨
  ∃ n, disk (run_loop steps w) !! p = Some (File (take n data)).
Proof.
  intros Hdata.
  assert (∀ w0 : World,
            (∀ b, (p, b) ∈ pending w0 → b = data) →
            (disk w0 !! p = disk w !! p ∨
             ∃ n, disk w0 !! p = Some (File (take n data))) →
            disk (run_loop steps w0) !! p = disk w !! p ∨
            ∃ n, disk (run_loop steps w0) !! p = Some (File (take n data))) as Hgen.
  2:{ apply Hgen; [done|by left]. }
  clear Hdata. induction steps as [|[i o] steps IH]; intros w0 Hdata Hinv; [done|].
  simpl. apply IH.
  - intros b Hin. eapply Hdata, complete_pending, Hin.
  - unfold complete. destruct (pending w0 !! i) as [[q b]|] eqn:Hi; [|done].
    destruct (decide (q = p)) as [->|Hne].
    + assert (b = data) as ->.
      { eapply Hdata, list_elem_of_lookup_2, Hi. }
      destruct o; simpl; [|done|].
      * right. exists (List.length data). by rewrite lookup_insert_eq, firstn_all.
      * right. exists n. by rewrite lookup_insert_eq.
    + destruct o; simpl; by rewrite ?lookup_insert_ne.
Qed.

(** ** The handlers, case by case *)

(** What a serve request with a session and an identifier is answered. *)
Lemma serve_authenticated host event s k w :
  serve_session event = Some s → serve_id event = Some k → k ≠ "" →
  respond (serve host event) w
  = (match disk w !! Path.join [storage_root host; or_else (recorded_image k w) "null"] with
     | None => Failed (createError 404 "File not found")
     | Some (File b) => Stream 200 "application/octet-stream" b
     | Some Dir =>
         Failed (FsError "EISDIR"
                   (Path.join [storage_root host; or_else (recorded_image k w) "null"]))
     end, w).
Proof.
  intros Hs Hk Hne. unfold serve, respond. rewrite Hs, Hk. simpl.
  unfold truthy_string. apply nonempty_true in Hne. rewrite Hne. simpl.
  unfold bind, prisma.findUnique, fs.existsSync, fs.readStream, recorded_image.
  simpl. set (p := Path.join _).
  destruct (disk w !! p) as [[b|]|] eqn:E; simpl; by rewrite ?E.
Qed.

Lemma serve_anonymous host event w :
  serve_session event = None →
  respond (serve host event) w = (Failed (createError 401 "Unauthorized"), w).
Proof. intros Hs. unfold serve, respond. by rewrite Hs. Qed.

Lemma serve_no_id host event s w :
  serve_session event = Some s → truthy_opt_string (serve_id event) = false →
  respond (serve host event) w = (Failed (createError 400 "Missing userId"), w).
Proof. intros Hs Hk. unfold serve, respond. by rewrite Hs, Hk. Qed.


(** What an upload with a session and a [file] field is answered. *)
Lemma upload_with_file host session form file w :
  find is_file_field form = Some file →
  respond (upload host (mkUpload (Some session) (Some form))) w
  = let ownerId := Session.user_id session in
    match ensure_dir host (upload_dir host ownerId) w with
    | (Throw e, w1) => (Failed e, w1)
    | (Ok _, w1) =>
        if bool_decide (is_Some (disk w1 !! upload_file host ownerId))
        then (Failed (H3Error {| statusCode := 400; statusMessage := None;
                                 message := Some "Image already exists." |}), w1)
        else
          let w2 := mkWorld (users w1) (disk w1)
                      (pending w1 ++ [(upload_file host ownerId, MultiPartData.data file)])
                      (uncaught w1) in
          match find (prisma.has_id ownerId) (users w1) with
          | None => (Failed (PrismaError "P2025"), run_loop (loop host) w2)
          | Some _ =>
              (Json 201 "Added profile picture to logged in user.",
               run_loop (loop host)
                 (mkWorld (map (prisma.set_image ownerId (image_path host ownerId)) (users w1))
                    (disk w1)
                    (pending w1 ++ [(upload_file host ownerId, MultiPartData.data file)])
                    (uncaught w1)))
          end
    end.
Proof.
  intros Hf. unfold upload, respond. simpl. rewrite Hf. simpl.
  unfold bind at 1. destruct (ensure_dir _ _ w) as [[[]|e] w1]; [|done].
  unfold bind, await, fs.existsSync, fs.writeFile, prisma.update, ret. simpl.
  destruct (bool_decide _); [done|]. simpl.
  by destruct (find _ (users w1)).
Qed.

(** An upload that meets no obstacle. *)
Lemma upload_accepted host session form file w d u :
  find is_file_field form = Some file →
  ensure_dir host (upload_dir host (Session.user_id session)) w
  = (Ok tt, fs.set_disk d w) →
  d !! upload_file host (Session.user_id session) = None →
  find (prisma.has_id (Session.user_id session)) (users w) = Some u →
  respond (upload host (mkUpload (Some session) (Some form))) w
  = (Json 201 "Added profile picture to logged in user.",
     run_loop (loop host)
       (mkWorld
          (map (prisma.set_image (Session.user_id session)
                  (image_path host (Session.user_id session))) (users w))
          d
          (pending w ++ [(upload_file host (Session.user_id session),
                          MultiPartData.data file)])
          (uncaught w))).
Proof.
  intros Hf Hd Hfree Hu. rewrite (upload_with_file _ _ _ file) by done.
  simpl. rewrite Hd. simpl. rewrite Hfree.
  rewrite bool_decide_eq_false_2 by by intros [? ?]. by rewrite Hu.
Qed.

(** ** Serve *)

(** C1 (as amended).  A serve request without a session is answered 401,
    whatever else it carries.  A serve request with a session is never
    answered 401; it is answered 400 (no user identifier), 404 (the path the
    handler resolves does not exist), 200 with the content of the file, or
    fails with the stream's error when the resolved path is a directory. *)
Theorem serve_responses host event w :
  match serve_session event with
  | None =>
      fst (respond (serve host event) w) = Failed (createError 401 "Unauthorized")
  | Some _ =>
      status_of (fst (respond (serve host event) w)) ≠ 401 ∧
      (fst (respond (serve host event) w) = Failed (createError 400 "Missing userId") ∨
       fst (respond (serve host event) w) = Failed (createError 404 "File not found") ∨
       (∃ b, fst (respond (serve host event) w)
             = Stream 200 "application/octet-stream" b) ∨
       (∃ p, fst (respond (serve host event) w) = Failed (FsError "EISDIR" p) ∧
             disk w !! p = Some Dir))
  end.
Proof.
  destruct (serve_session event) as [s|] eqn:Hs; [|by rewrite serve_anonymous].
  destruct (truthy_opt_string (serve_id event)) eqn:Hk.
  - destruct (serve_id event) as [k|] eqn:Hid; [|done].
    rewrite (serve_authenticated host event s k) by (by try apply nonempty_true).
    simpl. set (p := Path.join _).
    destruct (disk w !! p) as [[b|]|] eqn:E; simpl; (split; [done|]).
    + right; right; left. by exists b.
    + right; right; right. by exists p.
    + right; by left.
  - rewrite (serve_no_id host event s) by done. simpl. split; [done|by left].
Qed.

(** C1, counterexample.  After [u1]'s upload has reached the disk, a
    request for [u1]'s picture is answered 401 without a session and 200
    with one: the answer depends on the requester's session. *)
Lemma serve_depends_on_session :
  status_of (fst (respond (serve Scenario.host (mkServe None (Some "u1")))
                    (settle true Scenario.uploaded))) = 401 ∧
  fst (respond (serve Scenario.host (mkServe (Some Scenario.session) (Some "u1")))
         (settle true Scenario.uploaded))
  = Stream 200 "application/octet-stream" Scenario.bytes.
Proof. split; vm_compute; reflexivity. Qed.

(** C5 (as amended).  For a serve request with a session and a user
    identifier: when the path the handler resolves does not exist, the
    answer is 404 and nothing changes.  The resolved path is the recorded
    image path under the storage root, and the entry named [null] under the
    storage root when no path is recorded; the answer is the same in both
    cases. *)
Theorem serve_not_found host event s k w :
  serve_session event = Some s → serve_id event = Some k → k ≠ "" →
  disk w !! Path.join [storage_root host; or_else (recorded_image k w) "null"] = None →
  respond (serve host event) w = (Failed (createError 404 "File not found"), w).
Proof.
  intros Hs Hk Hne Hnone. rewrite (serve_authenticated host event s k) by done.
  by rewrite Hnone.
Qed.

Lemma serve_not_found_witness :
  respond (serve Scenario.host (mkServe (Some Scenario.session) (Some "u2")))
    Scenario.world
  = (Failed (createError 404 "File not found"), Scenario.world).
Proof.
  apply (serve_not_found Scenario.host _ Scenario.session "u2").
  - reflexivity.
  - reflexivity.
  - discriminate.
  - vm_compute. reflexivity.
Defined.

(** C5, counterexample.  [u1] has no image path recorded and the request
    names [u1]; without a session the answer is 401, not 404. *)
Lemma serve_anonymous_no_image :
  recorded_image "u1" Scenario.world = None ∧
  serve_id (mkServe None (Some "u1")) = Some "u1" ∧
  status_of (fst (respond (serve Scenario.host (mkServe None (Some "u1")))
                    Scenario.world)) = 401.
Proof. repeat split; vm_compute; reflexivity. Qed.


(** The response depends on the world only through the image path
    recorded for the user and the entry at the path resolved from it. *)
Lemma serve_depends_on host event w w' :
  (∀ k, serve_id event = Some k →
        recorded_image k w = recorded_image k w' ∧
        disk w !! Path.join [storage_root host; or_else (recorded_image k w) "null"]
        = disk w' !! Path.join [storage_root host; or_else (recorded_image k w) "null"]) →
  fst (respond (serve host event) w) = fst (respond (serve host event) w').
Proof.
  intros Hsame.
  destruct (serve_session event) as [s|] eqn:Hs; [|by rewrite !serve_anonymous].
  destruct (truthy_opt_string (serve_id event)) eqn:Hk;
    [|by rewrite !(serve_no_id host event s)].
  destruct (serve_id event) as [k|] eqn:Hid; [|done].
  destruct (Hsame k eq_refl) as [Hrec Hdisk].
  rewrite !(serve_authenticated host event s k) by (by try apply nonempty_true).
  simpl. by rewrite <- Hrec, Hdisk.
Qed.

(** ** Upload *)

(** C4.  An upload request without a session is answered 401 and leaves
    the world as it was: no directory, no file, no queued write, no change
    to any row.  The handler is then the bare [throw]: it reaches neither
    the disk nor the table. *)
Theorem upload_anonymous host event w :
  upload_session event = None →
  upload host event = throw (createError 401 "Unauthorized") ∧
  respond (upload host event) w = (Failed (createError 401 "Unauthorized"), w).
Proof. intros Hs. unfold upload, respond. by rewrite Hs. Qed.

Lemma upload_anonymous_witness :
  upload Scenario.host (mkUpload None (Some [Scenario.part Scenario.bytes]))
  = throw (createError 401 "Unauthorized") ∧
  respond (upload Scenario.host (mkUpload None (Some [Scenario.part Scenario.bytes])))
    Scenario.world
  = (Failed (createError 401 "Unauthorized"), Scenario.world).
Proof. apply upload_anonymous. reflexivity. Defined.

(** C6 (as amended).  An upload request with a session is answered 400 in
    exactly three cases: there is no form data; the form has no [file]
    field; or the directory step succeeds and the generated file name is
    already taken. *)
Theorem upload_400_iff host event session w :
  upload_session event = Some session →
  status_of (fst (respond (upload host event) w)) = 400 ↔
  upload_form event = None ∨
  (∃ form, upload_form event = Some form ∧ find is_file_field form = None) ∨
  (∃ form file w1,
      upload_form event = Some form ∧ find is_file_field form = Some file ∧
      ensure_dir host (upload_dir host (Session.user_id session)) w = (Ok tt, w1) ∧
      is_Some (disk w1 !! upload_file host (Session.user_id session))).
Proof.
  intros Hs. destruct event as [se fo]. simpl in Hs. subst se. simpl.
  destruct fo as [form|].
  2:{ split; [by left|done]. }
  destruct (find is_file_field form) as [file|] eqn:Hf.
  2:{ unfold upload, respond. simpl. rewrite Hf. simpl.
      split; [|done]. intros _. right; left. by exists form. }
  rewrite (upload_with_file host session form file) by done. simpl.
  destruct (ensure_dir _ _ w) as [[[]|e] w1] eqn:Hd.
  - destruct (bool_decide _) eqn:Hb; simpl.
    + apply bool_decide_eq_true in Hb. split; [|done]. intros _.
      right; right. by exists form, file, w1.
    + apply bool_decide_eq_false in Hb.
      split.
      * by destruct (find _ (users w1)).
      * intros [?|[(?&?&?)|(?&?&?&?&?&[= <-]&?)]]; simplify_eq. done.
  - cbn [fst]. rewrite (ensure_dir_throws _ _ _ _ _ Hd). split; [done|].
    intros [?|[(?&?&?)|(?&?&?&?&?&?&?)]]; simplify_eq.
Qed.

Lemma upload_400_iff_witness :
  status_of (fst (respond (upload Scenario.host (Scenario.request Scenario.bytes))
                    (settle true Scenario.uploaded))) = 400 ↔
  upload_form (Scenario.request Scenario.bytes) = None ∨
  (∃ form, upload_form (Scenario.request Scenario.bytes) = Some form ∧
           find is_file_field form = None) ∨
  (∃ form file w1,
      upload_form (Scenario.request Scenario.bytes) = Some form ∧
      find is_file_field form = Some file ∧
      ensure_dir Scenario.host (upload_dir Scenario.host "u1")
        (settle true Scenario.uploaded) = (Ok tt, w1) ∧
      is_Some (disk w1 !! upload_file Scenario.host "u1")).
Proof.
  apply (upload_400_iff Scenario.host (Scenario.request Scenario.bytes)
           Scenario.session (settle true Scenario.uploaded)).
  reflexivity.
Defined.

(** C6, counterexample.  The form is present and has a [file] field, yet the
    answer is 400: the generated name is already taken on the disk. *)
Lemma upload_name_taken :
  upload_session (Scenario.request Scenario.bytes) = Some Scenario.session ∧
  upload_form (Scenario.request Scenario.bytes) = Some [Scenario.part Scenario.bytes] ∧
  find is_file_field [Scenario.part Scenario.bytes] = Some (Scenario.part Scenario.bytes) ∧
  fst (respond (upload Scenario.host (Scenario.request Scenario.bytes))
         (settle true Scenario.uploaded))
  = Failed (H3Error {| statusCode := 400; statusMessage := None;
                       message := Some "Image already exists." |}).
Proof. repeat split; vm_compute; reflexivity. Qed.



(** The scenario of the guide, the write ending after the answer and during
    the handler: [u1] uploads three bytes, and a serve request for [u1]
    returns them. *)
Example upload_then_serve_after_answer :
  fst (respond (serve Scenario.host (mkServe (Some (Session.mk "u2")) (Some "u1")))
         (after_upload Scenario.host (Scenario.request Scenario.bytes)
            [(0, Written)] Scenario.world))
  = Stream 200 "application/octet-stream" Scenario.bytes.
Proof. vm_compute. reflexivity. Qed.

Example upload_then_serve_before_answer :
  disk (snd (respond (upload Scenario.host_written (Scenario.request Scenario.bytes))
               Scenario.world)) !! Scenario.blob
  = Some (File Scenario.bytes) ∧
  fst (respond (serve Scenario.host (mkServe (Some (Session.mk "u2")) (Some "u1")))
         (after_upload Scenario.host_written (Scenario.request Scenario.bytes)
            [] Scenario.world))
  = Stream 200 "application/octet-stream" Scenario.bytes.
Proof. split; vm_compute; reflexivity. Qed.


(** C7 (as amended).  An upload whose [file] field holds an empty buffer is
    not rejected: when the directory step succeeds, the generated name is
    free and the user's row exists, it is answered 201, an empty blob is
    queued for writing and the image path is recorded.  The world it leaves
    is the one with the path recorded and the empty blob queued, after the
    turns the event loop takes during the handler. *)
Theorem upload_empty_file host session form file u w d :
  find is_file_field form = Some file →
  MultiPartData.data file = [] →
  ensure_dir host (upload_dir host (Session.user_id session)) w
  = (Ok tt, fs.set_disk d w) →
  d !! upload_file host (Session.user_id session) = None →
  find (prisma.has_id (Session.user_id session)) (users w) = Some u →
  respond (upload host (mkUpload (Some session) (Some form))) w
  = (Json 201 "Added profile picture to logged in user.",
     run_loop (loop host)
       (mkWorld
          (map (prisma.set_image (Session.user_id session)
                  (image_path host (Session.user_id session))) (users w))
          d
          (pending w ++ [(upload_file host (Session.user_id session), [])])
          (uncaught w))).
Proof.
  intros Hf Hdata Hd Hfree Hu.
  rewrite (upload_accepted host session form file w d u) by done.
  by rewrite Hdata.
Qed.

Lemma upload_empty_file_witness :
  respond (upload Scenario.host (Scenario.request [])) Scenario.world
  = (Json 201 "Added profile picture to logged in user.",
     mkWorld
       (map (prisma.set_image "u1" (image_path Scenario.host "u1"))
          (users Scenario.world))
       (disk Scenario.uploaded)
       (pending Scenario.world ++ [(upload_file Scenario.host "u1", [])])
       (uncaught Scenario.world)).
Proof.
  apply (upload_empty_file Scenario.host Scenario.session
           [Scenario.part []] (Scenario.part []) Scenario.u1
           Scenario.world (disk Scenario.uploaded)).
  - reflexivity.
  - reflexivity.
  - vm_compute. reflexivity.
  - vm_compute. reflexivity.
  - reflexivity.
Defined.

(** C7, counterexample.  The [file] field is present with an empty buffer;
    the answer is 201, the empty blob is queued for writing and the path is
    recorded. *)
Lemma upload_empty_accepted :
  MultiPartData.data (Scenario.part []) = [] ∧
  fst (respond (upload Scenario.host (Scenario.request [])) Scenario.world)
  = Json 201 "Added profile picture to logged in user." ∧
  pending (snd (respond (upload Scenario.host (Scenario.request [])) Scenario.world))
  = [(Scenario.blob, [])] ∧
  recorded_image "u1"
    (snd (respond (upload Scenario.host (Scenario.request [])) Scenario.world))
  = Some Scenario.recorded.
Proof. repeat split; vm_compute; reflexivity. Qed.

(** In the world an accepted upload leaves, the image path is recorded,
    whatever became of the write during the handler; where the event loop
    took no turn, the write is still waiting for its callback. *)
Lemma upload_records_while_write_pending host session form file u w d :
  find is_file_field form = Some file →
  ensure_dir host (upload_dir host (Session.user_id session)) w
  = (Ok tt, fs.set_disk d w) →
  d !! upload_file host (Session.user_id session) = None →
  find (prisma.has_id (Session.user_id session)) (users w) = Some u →
  recorded_image (Session.user_id session)
    (snd (respond (upload host (mkUpload (Some session) (Some form))) w))
  = Some (image_path host (Session.user_id session)) ∧
  (loop host = [] →
   (upload_file host (Session.user_id session), MultiPartData.data file)
     ∈ pending (snd (respond (upload host (mkUpload (Some session) (Some form))) w))).
Proof.
  intros Hf Hd Hfree Hu.
  rewrite (upload_accepted host session form file w d u) by done.
  cbn [snd]. split.
  - unfold recorded_image. rewrite run_loop_users. cbn [users].
    by rewrite (find_set_image _ _ _ u).
  - intros ->. cbn [run_loop fold_left pending]. set_solver.
Qed.

(** C3, at the failing input.  [u1]'s upload is answered 201 with its write
    still pending and the path already recorded.  When the write then
    fails, the path stays recorded, no file exists under it, and the error
    surfaces only as an uncaught exception of the callback. *)
Theorem write_failure_not_propagated :
  respond (upload Scenario.host (Scenario.request Scenario.bytes)) Scenario.world
  = (Json 201 "Added profile picture to logged in user.", Scenario.uploaded) ∧
  pending Scenario.uploaded = [(Scenario.blob, Scenario.bytes)] ∧
  recorded_image "u1" Scenario.uploaded = Some Scenario.recorded ∧
  recorded_image "u1" (settle false Scenario.uploaded) = Some Scenario.recorded ∧
  disk (settle false Scenario.uploaded) !! Scenario.blob = None ∧
  uncaught (settle false Scenario.uploaded) = [FsError "EIO" Scenario.blob].
Proof. repeat split; vm_compute; reflexivity. Qed.

(** C8, at the failing input.  [u1]'s upload is answered 201 and records
    [users/u1/images/<generated name>], and the disk is full: the write
    fails after the file has been created.  Whether this happens after the
    answer or while the handler awaits the record update, the path is
    recorded, the file of that name is empty, and a serve request for [u1]
    is answered 200 with an empty body instead of the three uploaded bytes.
    When the write is refused at the open instead, the path is recorded all
    the same, no file of that name exists and the serve request is answered
    404. *)
Theorem recorded_path_of_failed_write :
  (* the disk fills up after the answer *)
  status_of (fst (respond (upload Scenario.host (Scenario.request Scenario.bytes))
                    Scenario.world)) = 201 ∧
  recorded_image "u1" (complete 0 (Truncated "ENOSPC" 0) Scenario.uploaded)
  = Some ("users/u1/images/" +:+ randomUUID Scenario.host) ∧
  disk (complete 0 (Truncated "ENOSPC" 0) Scenario.uploaded)
    !! Path.join [storage_root Scenario.host;
                  "users/u1/images/" +:+ randomUUID Scenario.host]
  = Some (File []) ∧
  fst (respond (serve Scenario.host (mkServe (Some Scenario.session) (Some "u1")))
         (complete 0 (Truncated "ENOSPC" 0) Scenario.uploaded))
  = Stream 200 "application/octet-stream" [] ∧
  (* the disk fills up while the handler awaits the record update *)
  respond (upload Scenario.host_disk_full (Scenario.request Scenario.bytes))
    Scenario.world
  = (Json 201 "Added profile picture to logged in user.",
     complete 0 (Truncated "ENOSPC" 0) Scenario.uploaded) ∧
  uncaught (complete 0 (Truncated "ENOSPC" 0) Scenario.uploaded)
  = [FsError "ENOSPC" Scenario.blob] ∧
  (* the open is refused *)
  recorded_image "u1" (complete 0 (NotOpened "EACCES") Scenario.uploaded)
  = Some ("users/u1/images/" +:+ randomUUID Scenario.host) ∧
  disk (complete 0 (NotOpened "EACCES") Scenario.uploaded)
    !! Path.join [storage_root Scenario.host;
                  "users/u1/images/" +:+ randomUUID Scenario.host]
  = None ∧
  fst (respond (serve Scenario.host (mkServe (Some Scenario.session) (Some "u1")))
         (complete 0 (NotOpened "EACCES") Scenario.uploaded))
  = Failed (createError 404 "File not found").
Proof. repeat split; vm_compute; reflexivity. Qed.

(** For every accepted upload and every way its write can fail, during the
    handler or after it: the answer is 201 and the path stays recorded. *)
Lemma failed_write_keeps_record host session form file u w d steps :
  find is_file_field form = Some file →
  ensure_dir host (upload_dir host (Session.user_id session)) w
  = (Ok tt, fs.set_disk d w) →
  d !! upload_file host (Session.user_id session) = None →
  find (prisma.has_id (Session.user_id session)) (users w) = Some u →
  fst (respond (upload host (mkUpload (Some session) (Some form))) w)
  = Json 201 "Added profile picture to logged in user." ∧
  recorded_image (Session.user_id session)
    (after_upload host (mkUpload (Some session) (Some form)) steps w)
  = Some (image_path host (Session.user_id session)).
Proof.
  intros Hf Hd Hfree Hu. unfold after_upload.
  rewrite (upload_accepted host session form file w d u) by done.
  split; [done|]. cbn [snd]. unfold recorded_image.
  rewrite !run_loop_users. cbn [users]. by rewrite (find_set_image _ _ _ u).
Qed.

(** For identifiers and generated names that are plain path segments, the
    recorded path is [users/<ownerId>/images/<filename>]. *)
Lemma image_path_plain host ownerId :
  Path.plain ownerId → Path.plain (randomUUID host) →
  image_path host ownerId
  = "users/" +:+ ownerId +:+ "/images/" +:+ randomUUID host.
Proof.
  intros Hid Hname. unfold image_path. rewrite join_plain.
  - reflexivity.
  - discriminate.
  - constructor; [by repeat split|].
    constructor; [done|].
    constructor; [by repeat split|].
    constructor; [done|]. constructor.
Qed.

(** The recorded path is never absolute. *)
Lemma image_path_relative host ownerId :
  Path.isAbsolute (image_path host ownerId) = false.
Proof. unfold image_path. by rewrite join_absolute. Qed.

(** ** List users *)

Lemma redact_same_but_image_path u v :
  same_but_image_path u v → redact u = redact v.
Proof.
  intros (Hi & He & Hn & Hv & Him). unfold redact.
  rewrite Hi, He, Hn, Hv. f_equal. apply bool_decide_ext. tauto.
Qed.

Lemma redact_redacted_of u : redacted_of u (redact u).
Proof.
  unfold redacted_of, redact. simpl. split_and!; try done.
  apply bool_decide_eq_true.
Qed.

(** C10.  The list-users operation answers with one entry per row, in the
    order of the rows, each with the row's identifier, email, name and
    verification flag and, in place of the image path, the flag that says
    whether one is recorded; it changes nothing.  Hence two tables that
    differ at most in the strings recorded as image paths get the same
    response: the stored path never reaches a client. *)
Theorem list_users_redacted w w' :
  Forall2 same_but_image_path (users w) (users w') →
  (∃ l, list_users w = (Ok l, w) ∧ Forall2 redacted_of (users w) l) ∧
  fst (list_users w) = fst (list_users w').
Proof.
  intros H. split.
  - exists (map redact (users w)). split; [done|].
    clear H. induction (users w) as [|u us IH]; simpl; constructor; [|done].
    apply redact_redacted_of.
  - unfold list_users, bind, prisma.findMany, ret. simpl. f_equal.
    induction H as [|u v us vs Huv _ IH]; [done|].
    simpl. by rewrite (redact_same_but_image_path u v), IH.
Qed.

Lemma list_users_redacted_witness :
  (∃ l, list_users Scenario.uploaded = (Ok l, Scenario.uploaded) ∧
        Forall2 redacted_of (users Scenario.uploaded) l) ∧
  fst (list_users Scenario.uploaded) = fst (list_users Scenario.moved).
Proof.
  apply list_users_redacted.
  vm_compute. repeat constructor; intros; discriminate.
Defined.

(** * Further properties of the handlers *)

(** ** The directory step *)

Lemma mkdirs_grows ps d d' p :
  fs.mkdirs ps d = Some d' →
  d' !! p = d !! p ∨ (d !! p = None ∧ d' !! p = Some Dir).
Proof.
  revert d. induction ps as [|q ps IH]; intros d; simpl.
  - intros [= ->]. by left.
  - destruct (d !! q) as [[b|]|] eqn:Hq; [done| |].
    + apply IH.
    + intros Hm. destruct (IH _ Hm) as [Heq|[Hnone Hdir]].
      * destruct (decide (q = p)) as [->|Hne].
        -- right. by rewrite Heq, lookup_insert_eq.
        -- left. by rewrite Heq, lookup_insert_ne.
      * right. split; [|done].
        destruct (decide (q = p)) as [->|Hne]; [done|].
        by rewrite lookup_insert_ne in Hnone.
Qed.

Lemma ensure_dir_grows host dirPath w r w' p :
  ensure_dir host dirPath w = (r, w') →
  disk w' !! p = disk w !! p ∨ (disk w !! p = None ∧ disk w' !! p = Some Dir).
Proof.
  unfold ensure_dir, bind, fs.existsSync, fs.mkdirSync, ret.
  destruct (bool_decide _); simpl; [intros [= _ <-]; by left|].
  destruct (mkdir_refused host); [intros [= _ <-]; by left|].
  destruct (fs.mkdirs _ _) as [d|] eqn:Hm; intros [= _ <-]; [|by left].
  simpl. by eapply mkdirs_grows.
Qed.

(** ** Every upload, case by case *)

Lemma upload_no_form host session w :
  respond (upload host (mkUpload (Some session) None)) w
  = (Failed (createError 400 "No form data"), w).
Proof. done. Qed.

Lemma upload_no_file host session form w :
  find is_file_field form = None →
  respond (upload host (mkUpload (Some session) (Some form))) w
  = (Failed (createError 400 "File missing"), w).
Proof. intros Hf. unfold upload, respond. simpl. by rewrite Hf. Qed.

(** An upload is answered 201 only when it meets no obstacle. *)
Lemma upload_201_inv host event w :
  status_of (fst (respond (upload host event) w)) = 201 →
  ∃ session form file d u,
    event = mkUpload (Some session) (Some form) ∧
    find is_file_field form = Some file ∧
    ensure_dir host (upload_dir host (Session.user_id session)) w
    = (Ok tt, fs.set_disk d w) ∧
    d !! upload_file host (Session.user_id session) = None ∧
    find (prisma.has_id (Session.user_id session)) (users w) = Some u.
Proof.
  destruct event as [[session|] [form|]]; try done.
  destruct (find is_file_field form) as [file|] eqn:Hf;
    [|by rewrite upload_no_file].
  rewrite (upload_with_file host session form file) by done. cbn zeta.
  destruct (ensure_dir _ _ w) as [[[]|e] w1] eqn:Hd.
  - pose proof (ensure_dir_frame _ _ _ _ _ Hd) as Hw1.
    destruct (bool_decide _) eqn:Hb; [done|].
    apply bool_decide_eq_false in Hb.
    destruct (find _ (users w1)) as [u|] eqn:Hu; [|done].
    intros _. exists session, form, file, (disk w1), u.
    rewrite <- Hw1. repeat split; try done.
    + destruct (disk w1 !! _) eqn:E; [|done]. exfalso. apply Hb. eauto.
    + rewrite Hw1 in Hu. exact Hu.
  - cbn [fst]. by rewrite (ensure_dir_throws _ _ _ _ _ Hd).
Qed.

(** The table an upload leaves: untouched, or with the owner's image path
    set. *)
Lemma upload_users host event w :
  users (snd (respond (upload host event) w)) = users w ∨
  ∃ session,
    upload_session event = Some session ∧
    status_of (fst (respond (upload host event) w)) = 201 ∧
    users (snd (respond (upload host event) w))
    = map (prisma.set_image (Session.user_id session)
             (image_path host (Session.user_id session))) (users w).
Proof.
  destruct event as [[session|] [form|]]; try by left.
  destruct (find is_file_field form) as [file|] eqn:Hf;
    [|left; by rewrite upload_no_file].
  rewrite (upload_with_file host session form file) by done. cbn zeta.
  destruct (ensure_dir _ _ w) as [[[]|e] w1] eqn:Hd;
    pose proof (ensure_dir_frame _ _ _ _ _ Hd) as Hw1.
  - destruct (bool_decide _); [left; by rewrite Hw1|].
    destruct (find _ (users w1)) as [u|]; cbn [fst snd].
    + right. exists session. repeat split.
      rewrite run_loop_users. cbn [users]. by rewrite Hw1.
    + left. rewrite run_loop_users. cbn [users]. by rewrite Hw1.
  - left. by rewrite Hw1.
Qed.

(** ** Paths *)

(** X1.  The path a serve request resolves from the image path an upload
    records is the path that upload writes to, for every storage root,
    owner identifier and generated name, as long as both requests see the
    same storage root. *)
Theorem recorded_path_resolves_to_written_path host host' ownerId :
  storage_root host' = storage_root host →
  Path.join [storage_root host'; or_else (Some (image_path host ownerId)) "null"]
  = Path.join [Path.join [storage_root host; "users"; ownerId; "images"];
               randomUUID host].
Proof.
  intros Hroot. rewrite image_path_truthy. by rewrite blob_path.
Qed.

Lemma recorded_path_resolves_to_written_path_witness :
  Path.join [storage_root (mkHost (Some "/var/data/") "other" true [(0, Written)]);
             or_else (Some (image_path (mkHost (Some "/var/data/") "a..b" false []) "../u"))
               "null"]
  = Path.join [Path.join [storage_root (mkHost (Some "/var/data/") "a..b" false []);
                          "users"; "../u"; "images"];
               randomUUID (mkHost (Some "/var/data/") "a..b" false [])].
Proof.
  apply (recorded_path_resolves_to_written_path
           (mkHost (Some "/var/data/") "a..b" false [])
           (mkHost (Some "/var/data/") "other" true [(0, Written)]) "../u").
  reflexivity.
Defined.

(** ** Serve *)

(** X2.  The serve handler checks that there is a session and never looks
    at whose it is: two requests for the same identifier, each with a
    session, get the same response. *)
Theorem serve_any_session host e1 e2 s1 s2 w :
  serve_session e1 = Some s1 → serve_session e2 = Some s2 →
  serve_id e1 = serve_id e2 →
  respond (serve host e1) w = respond (serve host e2) w.
Proof.
  intros H1 H2 Hid. unfold serve. by rewrite H1, H2, Hid.
Qed.

Lemma serve_any_session_witness :
  respond (serve Scenario.host (mkServe (Some (Session.mk "u1")) (Some "u1")))
    (settle true Scenario.uploaded)
  = respond (serve Scenario.host (mkServe (Some (Session.mk "u2")) (Some "u1")))
      (settle true Scenario.uploaded).
Proof.
  apply (serve_any_session Scenario.host _ _ (Session.mk "u1") (Session.mk "u2"));
    reflexivity.
Defined.

(** X3.  When no image path is recorded for the identifier (no row, no
    path, or the empty string) and the storage root holds a file named
    [null], a serve request with a session is answered 200 with the content
    of that file. *)
Theorem serve_null_entry host event s k w b :
  serve_session event = Some s → serve_id event = Some k → k ≠ "" →
  truthy_opt_string (recorded_image k w) = false →
  disk w !! Path.join [storage_root host; "null"] = Some (File b) →
  respond (serve host event) w = (Stream 200 "application/octet-stream" b, w).
Proof.
  intros Hs Hk Hne Hfalsy Hnull.
  rewrite (serve_authenticated host event s k) by done.
  assert (or_else (recorded_image k w) "null" = "null") as ->.
  { unfold or_else. destruct (recorded_image k w) as [p|]; [|done].
    simpl in Hfalsy. by rewrite Hfalsy. }
  by rewrite Hnull.
Qed.

Lemma serve_null_entry_witness :
  respond (serve Scenario.host (mkServe (Some Scenario.session) (Some "nobody")))
    (mkWorld [Scenario.u1] {[ "public/images/null" := File Scenario.bytes ]} [] [])
  = (Stream 200 "application/octet-stream" Scenario.bytes,
     mkWorld [Scenario.u1] {[ "public/images/null" := File Scenario.bytes ]} [] []).
Proof.
  apply (serve_null_entry Scenario.host _ Scenario.session "nobody").
  - reflexivity.
  - reflexivity.
  - discriminate.
  - reflexivity.
  - vm_compute. reflexivity.
Defined.

(** ** Upload: what it leaves alone *)

Lemma has_id_set_image_any k k' v u :
  prisma.has_id k' (prisma.set_image k v u) = prisma.has_id k' u.
Proof. unfold prisma.set_image. by destruct (prisma.has_id k u). Qed.

Lemma find_set_image_other k k' v l :
  k ≠ k' →
  find (prisma.has_id k') (map (prisma.set_image k v) l) ≫= User.image
  = find (prisma.has_id k') l ≫= User.image.
Proof.
  intros Hne. induction l as [|x l IH]; [done|]. simpl.
  rewrite has_id_set_image_any.
  destruct (prisma.has_id k' x) eqn:Hx; [|done].
  unfold prisma.set_image, prisma.has_id in *.
  apply String.eqb_eq in Hx.
  destruct (String.eqb_spec (User.id x) k); [congruence|done].
Qed.

(** X4.  An upload changes the image path of nobody but the session's
    user: for any other identifier the recorded path is what it was,
    whatever the request and however it ends. *)
Theorem upload_other_users_untouched host event w k :
  (∀ session, upload_session event = Some session → Session.user_id session ≠ k) →
  recorded_image k (snd (respond (upload host event) w)) = recorded_image k w.
Proof.
  intros Hother. unfold recorded_image.
  destruct (upload_users host event w) as [->|(session & Hs & _ & ->)]; [done|].
  apply find_set_image_other. by apply Hother.
Qed.

Lemma upload_other_users_untouched_witness :
  recorded_image "u2"
    (snd (respond (upload Scenario.host (Scenario.request Scenario.bytes)) Scenario.world))
  = recorded_image "u2" Scenario.world.
Proof.
  apply upload_other_users_untouched.
  intros session [= <-]. discriminate.
Defined.

(** X5.  An upload never adds or removes a row and never changes an
    identifier, an email, a name or a verification flag. *)
Theorem upload_rows_keep_identity host event w :
  Forall2 (λ u v, User.id u = User.id v ∧ User.email u = User.email v ∧
                  User.name u = User.name v ∧
                  User.emailVerified u = User.emailVerified v)
    (users w) (users (snd (respond (upload host event) w))).
Proof.
  destruct (upload_users host event w) as [->|(session & _ & _ & ->)].
  - induction (users w); constructor; done.
  - induction (users w) as [|x l IH]; constructor; [|done].
    unfold prisma.set_image. by destruct (prisma.has_id _ x).
Qed.

(** X6.  By the time an upload is answered, a path that no earlier queued
    write targets holds what it held, or was free and now holds a
    directory, or was free, is the path of the upload's own file and holds
    the uploaded bytes or the first of them.  Nothing is removed, and the
    only file an upload can bring about is its own, under a free name. *)
Theorem upload_disk_effects host event w p :
  (∀ q b, (q, b) ∈ pending w → q ≠ p) →
  disk (snd (respond (upload host event) w)) !! p = disk w !! p ∨
  (disk w !! p = None ∧
   disk (snd (respond (upload host event) w)) !! p = Some Dir) ∨
  (disk w !! p = None ∧
   ∃ session form file n,
     event = mkUpload (Some session) (Some form) ∧
     find is_file_field form = Some file ∧
     p = upload_file host (Session.user_id session) ∧
     disk (snd (respond (upload host event) w)) !! p
     = Some (File (take n (MultiPartData.data file)))).
Proof.
  intros Hfree.
  destruct event as [[session|] [form|]]; try by left.
  destruct (find is_file_field form) as [file|] eqn:Hf;
    [|left; by rewrite upload_no_file].
  rewrite (upload_with_file host session form file) by done. cbn zeta.
  destruct (ensure_dir _ _ w) as [[[]|e] w1] eqn:Hd;
    pose proof (ensure_dir_grows _ _ _ _ _ p Hd) as Hg;
    pose proof (ensure_dir_frame _ _ _ _ _ Hd) as Hw1.
  2:{ cbn [snd]. destruct Hg as [?|?]; [by left|by right; left]. }
  destruct (bool_decide _) eqn:Hb.
  { cbn [snd]. destruct Hg as [?|?]; [by left|by right; left]. }
  apply bool_decide_eq_false in Hb.
  assert (pending w1 = pending w) as Hp by (rewrite Hw1; done).
  set (f := upload_file host (Session.user_id session)) in *.
  assert (∀ us,
    disk (run_loop (loop host)
            (mkWorld us (disk w1)
               (pending w1 ++ [(f, MultiPartData.data file)]) (uncaught w1))) !! p
    = disk w !! p ∨
    (disk w !! p = None ∧
     disk (run_loop (loop host)
             (mkWorld us (disk w1)
                (pending w1 ++ [(f, MultiPartData.data file)]) (uncaught w1))) !! p
     = Some Dir) ∨
    (disk w !! p = None ∧
     ∃ n, p = f ∧
          disk (run_loop (loop host)
                  (mkWorld us (disk w1)
                     (pending w1 ++ [(f, MultiPartData.data file)]) (uncaught w1))) !! p
          = Some (File (take n (MultiPartData.data file))))) as Hrun.
  { intros us. destruct (decide (p = f)) as [->|Hne].
    - assert (disk w1 !! f = None) as Hnone.
      { destruct (disk w1 !! f) eqn:E; [|done]. exfalso. apply Hb. eauto. }
      assert (disk w !! f = None) as Hnone0.
      { destruct Hg as [Heq|[? ?]]; [by rewrite <- Heq|done]. }
      edestruct (run_loop_disk_at (loop host)
                   (mkWorld us (disk w1)
                      (pending w1 ++ [(f, MultiPartData.data file)]) (uncaught w1))
                   f (MultiPartData.data file)) as [Hsame|[n Hn]].
      + cbn [pending]. rewrite Hp. intros b [Hin|Hin]%elem_of_app.
        * by apply Hfree in Hin.
        * apply list_elem_of_singleton in Hin. by injection Hin.
      + left. rewrite Hsame. cbn [disk]. by rewrite Hnone, Hnone0.
      + right; right. split; [done|]. by exists n.
    - rewrite run_loop_disk_other.
      + cbn [disk]. destruct Hg as [?|?]; [by left|by right; left].
      + cbn [pending]. rewrite Hp. intros q b [Hin|Hin]%elem_of_app.
        * by eapply Hfree.
        * apply list_elem_of_singleton in Hin. injection Hin as -> _.
          by intros ->. }
  destruct (find _ (users w1)); cbn [snd].
  - destruct (Hrun (map (prisma.set_image (Session.user_id session)
                           (image_path host (Session.user_id session)))
                     (users w1))) as [?|[?|(? & n & ? & ?)]];
      [by left|by right; left|].
    right; right. split; [done|]. by exists session, form, file, n.
  - destruct (Hrun (users w1)) as [?|[?|(? & n & ? & ?)]];
      [by left|by right; left|].
    right; right. split; [done|]. by exists session, form, file, n.
Qed.

Lemma upload_disk_effects_witness :
  disk (snd (respond (upload Scenario.host_written (Scenario.request Scenario.bytes))
               Scenario.world)) !! Scenario.blob
  = disk Scenario.world !! Scenario.blob ∨
  (disk Scenario.world !! Scenario.blob = None ∧
   disk (snd (respond (upload Scenario.host_written (Scenario.request Scenario.bytes))
                Scenario.world)) !! Scenario.blob = Some Dir) ∨
  (disk Scenario.world !! Scenario.blob = None ∧
   ∃ session form file n,
     Scenario.request Scenario.bytes = mkUpload (Some session) (Some form) ∧
     find is_file_field form = Some file ∧
     Scenario.blob = upload_file Scenario.host_written (Session.user_id session) ∧
     disk (snd (respond (upload Scenario.host_written (Scenario.request Scenario.bytes))
                  Scenario.world)) !! Scenario.blob
     = Some (File (take n (MultiPartData.data file)))).
Proof.
  apply (upload_disk_effects Scenario.host_written (Scenario.request Scenario.bytes)
           Scenario.world Scenario.blob).
  intros q b Hin. simpl in Hin. by apply elem_of_nil in Hin.
Defined.

(** On the scenario's hosts: the blob written in full before the answer,
    and created empty by a full disk. *)
Example upload_blob_at_answer :
  disk (snd (respond (upload Scenario.host_written (Scenario.request Scenario.bytes))
               Scenario.world)) !! Scenario.blob
  = Some (File Scenario.bytes) ∧
  disk (snd (respond (upload Scenario.host_disk_full (Scenario.request Scenario.bytes))
               Scenario.world)) !! Scenario.blob
  = Some (File []) ∧
  disk (snd (respond (upload Scenario.host (Scenario.request Scenario.bytes))
               Scenario.world)) !! Scenario.blob
  = None.
Proof. repeat split; vm_compute; reflexivity. Qed.

(** X7.  An upload that is not answered 201 leaves the table as it was, and
    unless it failed in the record update it queued no write either. *)
Theorem upload_failure_keeps_table host event w :
  status_of (fst (respond (upload host event) w)) ≠ 201 →
  users (snd (respond (upload host event) w)) = users w ∧
  (fst (respond (upload host event) w) = Failed (PrismaError "P2025") ∨
   pending (snd (respond (upload host event) w)) = pending w).
Proof.
  intros Hne. split.
  - by destruct (upload_users host event w) as [?|(? & _ & ? & _)].
  - revert Hne. destruct event as [[session|] [form|]]; try by right.
    destruct (find is_file_field form) as [file|] eqn:Hf;
      [|right; by rewrite upload_no_file].
    rewrite (upload_with_file host session form file) by done. cbn zeta.
    destruct (ensure_dir _ _ w) as [[[]|e] w1] eqn:Hd;
      pose proof (ensure_dir_frame _ _ _ _ _ Hd) as Hw1.
    + destruct (bool_decide _); [right; by rewrite Hw1|].
      destruct (find _ (users w1)); [done|by left].
    + right. by rewrite Hw1.
Qed.

Lemma upload_failure_keeps_table_witness :
  users (snd (respond (upload Scenario.host (Scenario.request Scenario.bytes))
                (settle true Scenario.uploaded)))
  = users (settle true Scenario.uploaded) ∧
  (fst (respond (upload Scenario.host (Scenario.request Scenario.bytes))
          (settle true Scenario.uploaded)) = Failed (PrismaError "P2025") ∨
   pending (snd (respond (upload Scenario.host (Scenario.request Scenario.bytes))
                   (settle true Scenario.uploaded)))
   = pending (settle true Scenario.uploaded)).
Proof.
  apply upload_failure_keeps_table. vm_compute. discriminate.
Defined.

(** X8.  When the session's user has no row, an upload that meets no other
    obstacle fails in the record update, after the write has been queued:
    the blob will be written and no row points to it.  The world it leaves
    is the one with the table untouched and the write queued, after the
    turns the event loop takes during the handler. *)
Theorem upload_without_row_orphans_blob host session form file w d :
  find is_file_field form = Some file →
  ensure_dir host (upload_dir host (Session.user_id session)) w
  = (Ok tt, fs.set_disk d w) →
  d !! upload_file host (Session.user_id session) = None →
  find (prisma.has_id (Session.user_id session)) (users w) = None →
  respond (upload host (mkUpload (Some session) (Some form))) w
  = (Failed (PrismaError "P2025"),
     run_loop (loop host)
       (mkWorld (users w) d
          (pending w ++ [(upload_file host (Session.user_id session),
                          MultiPartData.data file)])
          (uncaught w))).
Proof.
  intros Hf Hd Hfree Hu. rewrite (upload_with_file _ _ _ file) by done.
  simpl. rewrite Hd. simpl. rewrite Hfree.
  rewrite bool_decide_eq_false_2 by by intros [? ?]. by rewrite Hu.
Qed.

Lemma upload_without_row_orphans_blob_witness :
  respond (upload Scenario.host
             (mkUpload (Some (Session.mk "ghost")) (Some [Scenario.part Scenario.bytes])))
    Scenario.world
  = (Failed (PrismaError "P2025"),
     mkWorld (users Scenario.world)
       (disk (snd (respond (upload Scenario.host
                              (mkUpload (Some (Session.mk "ghost"))
                                 (Some [Scenario.part Scenario.bytes])))
                     Scenario.world)))
       (pending Scenario.world
          ++ [(upload_file Scenario.host "ghost",
               MultiPartData.data (Scenario.part Scenario.bytes))])
       (uncaught Scenario.world)).
Proof.
  apply (upload_without_row_orphans_blob Scenario.host (Session.mk "ghost")
           [Scenario.part Scenario.bytes] (Scenario.part Scenario.bytes)
           Scenario.world).
  - reflexivity.
  - vm_compute. reflexivity.
  - vm_compute. reflexivity.
  - reflexivity.
Defined.

(** X9.  An upload is answered 201 exactly when it carries a session and a
    form with a [file] field, the directory step succeeds, the generated
    name is free and the session's user has a row. *)
Theorem upload_201_iff host event w :
  status_of (fst (respond (upload host event) w)) = 201 ↔
  ∃ session form file d u,
    event = mkUpload (Some session) (Some form) ∧
    find is_file_field form = Some file ∧
    ensure_dir host (upload_dir host (Session.user_id session)) w
    = (Ok tt, fs.set_disk d w) ∧
    d !! upload_file host (Session.user_id session) = None ∧
    find (prisma.has_id (Session.user_id session)) (users w) = Some u.
Proof.
  split; [apply upload_201_inv|].
  intros (session & form & file & d & u & -> & Hf & Hd & Hfree & Hu).
  by rewrite (upload_accepted host session form file w d u).
Qed.

(** X10.  Of the parts of the form only the first one named [file] counts:
    the other parts, and later parts of that name, change nothing. *)
Theorem upload_uses_first_file_field host session form file w :
  find is_file_field form = Some file →
  respond (upload host (mkUpload (Some session) (Some form))) w
  = respond (upload host (mkUpload (Some session) (Some [file]))) w.
Proof.
  intros Hf.
  assert (find is_file_field [file] = Some file) as Hone.
  { simpl. apply find_some in Hf as [_ ->]. done. }
  by rewrite (upload_with_file host session form file),
    (upload_with_file host session [file] file).
Qed.

Lemma upload_uses_first_file_field_witness :
  respond (upload Scenario.host
             (mkUpload (Some Scenario.session)
                (Some [MultiPartData.mk (Some "note") None None [Byte.x41];
                       MultiPartData.mk None None None [];
                       Scenario.part Scenario.bytes;
                       Scenario.part [Byte.xff]])))
    Scenario.world
  = respond (upload Scenario.host
               (mkUpload (Some Scenario.session) (Some [Scenario.part Scenario.bytes])))
      Scenario.world.
Proof.
  apply upload_uses_first_file_field. reflexivity.
Defined.

(** ** Upload after upload *)



(** ** The recorded path *)

(** X12.  When the owner's identifier and the generated name are plain path
    segments, the recorded path is [users/<ownerId>/images/<name>]: four
    segments, the last one the generated name. *)
Theorem recorded_path_shape host ownerId :
  Path.plain ownerId → Path.plain (randomUUID host) →
  image_path host ownerId
  = "users/" +:+ ownerId +:+ "/images/" +:+ randomUUID host ∧
  Path.split (image_path host ownerId)
  = ["users"; ownerId; "images"; randomUUID host].
Proof.
  intros Hid Hname. rewrite image_path_plain by done. split; [done|].
  change ("users/" +:+ ownerId +:+ "/images/" +:+ randomUUID host)
    with (String.concat "/" ["users"; ownerId; "images"; randomUUID host]).
  apply split_concat; [done|].
  destruct Hid as (_ & _ & _ & Hid), Hname as (_ & _ & _ & Hname).
  by repeat constructor.
Qed.

Lemma recorded_path_shape_witness :
  image_path Scenario.host "u1"
  = "users/" +:+ "u1" +:+ "/images/" +:+ randomUUID Scenario.host ∧
  Path.split (image_path Scenario.host "u1")
  = ["users"; "u1"; "images"; randomUUID Scenario.host].
Proof.
  apply (recorded_path_shape Scenario.host "u1").
  - repeat split; discriminate.
  - repeat split; discriminate.
Defined.

(** X13.  Whatever the owner's identifier and the generated name, the
    recorded path is never absolute and never empty, so a serve request
    never replaces it by the [null] placeholder. *)
Theorem recorded_path_relative host ownerId :
  Path.isAbsolute (image_path host ownerId) = false ∧
  image_path host ownerId ≠ "" ∧
  or_else (Some (image_path host ownerId)) "null" = image_path host ownerId.
Proof.
  split; [apply image_path_relative|].
  split; [apply join_nonempty|apply image_path_truthy].
Qed.

(** ** Upload, then list *)

(** X14.  After an upload answered 201, the list-users response shows the
    image flag set for the rows of the session's user, from the moment the
    handler answers, and every other row as before. *)
Theorem upload_then_list host event session w :
  upload_session event = Some session →
  status_of (fst (respond (upload host event) w)) = 201 →
  fst (list_users (snd (respond (upload host event) w)))
  = Ok (map (λ u, if prisma.has_id (Session.user_id session) u
                  then Redacted.mk (User.id u) (User.email u) (User.name u)
                         (User.emailVerified u) true
                  else redact u)
          (users w)).
Proof.
  intros Hs H201.
  apply upload_201_inv in H201
    as (s1 & fo1 & fi1 & d1 & u1 & -> & Hf & Hd & Hfree & Hu).
  injection Hs as ->.
  rewrite (upload_accepted host session fo1 fi1 w d1 u1) by done.
  unfold list_users, bind, prisma.findMany, ret. cbn [fst snd].
  rewrite run_loop_users. cbn [users].
  f_equal. rewrite map_map. apply map_ext. intros u.
  unfold prisma.set_image. by destruct (prisma.has_id _ u).
Qed.

Lemma upload_then_list_witness :
  fst (list_users (snd (respond (upload Scenario.host (Scenario.request Scenario.bytes))
                          Scenario.world)))
  = Ok (map (λ u, if prisma.has_id (Session.user_id Scenario.session) u
                  then Redacted.mk (User.id u) (User.email u) (User.name u)
                         (User.emailVerified u) true
                  else redact u)
          (users Scenario.world)).
Proof.
  apply (upload_then_list Scenario.host (Scenario.request Scenario.bytes)
           Scenario.session Scenario.world).
  - reflexivity.
  - vm_compute. reflexivity.
Defined.

(** * The dashboard page *)

(** X15.  The page fetches the list as the handler redacts it, and links a
    picture for exactly the users with an image path recorded (the empty
    string included); the link names the user's own identifier. *)
Theorem dashboard_links w :
  fst (Dashboard.fetch_users w) = Some (map redact (users w)) ∧
  map Dashboard.getImageLink (map redact (users w))
  = map (λ u, match User.image u with
              | Some _ => Some ("api/users/" +:+ User.id u +:+ "/profile")
              | None => None
              end) (users w).
Proof.
  split; [done|]. rewrite map_map. apply map_ext. intros u.
  unfold Dashboard.getImageLink, redact. simpl.
  by destruct (User.image u).
Qed.

(** X16.  The page keeps its selection well-typed: if the selected file
    has an image media type (or there is none), this is still so after any
    file-input change, reader result, opening or closing of the dialog, and
    any run of the upload action. *)
Theorem selection_invariant page :
  Dashboard.selection_ok page →
  (∀ files, Dashboard.selection_ok (fst (Dashboard.handleImageUpload files page))) ∧
  (∀ result, Dashboard.selection_ok (Dashboard.reader_onload result page)) ∧
  Dashboard.selection_ok (Dashboard.openModal page) ∧
  Dashboard.selection_ok (Dashboard.closeModal page) ∧
  (∀ host session w,
      Dashboard.selection_ok (fst (Dashboard.updatePfp host session page w))).
Proof.
  intros Hok. repeat split; try done.
  - intros [[|file rest]|]; try done. unfold Dashboard.handleImageUpload.
    destruct (String.prefix "image/" (Dashboard.file_type file)) eqn:Hp; done.
  - intros host session w. unfold Dashboard.updatePfp.
    destruct (Dashboard.selectedFile page) as [file|] eqn:Hsel; [|done].
    destruct (respond _ w) as [r w1].
    destruct (Dashboard.fetch_ok r).
    + by destruct (Dashboard.fetch_users w1).
    + unfold Dashboard.selection_ok in *. simpl. by rewrite Hsel in *.
Qed.

Lemma selection_invariant_witness :
  (∀ files, Dashboard.selection_ok
              (fst (Dashboard.handleImageUpload files
                      (Dashboard.mkPage None (Some (Dashboard.mkFile "me.png" "image/png" Scenario.bytes))
       "data:image/png;base64,AQID" false true)))) ∧
  (∀ result, Dashboard.selection_ok
               (Dashboard.reader_onload result
                  (Dashboard.mkPage None (Some (Dashboard.mkFile "me.png" "image/png" Scenario.bytes))
       "data:image/png;base64,AQID" false true))) ∧
  Dashboard.selection_ok
    (Dashboard.openModal
       (Dashboard.mkPage None (Some (Dashboard.mkFile "me.png" "image/png" Scenario.bytes))
       "data:image/png;base64,AQID" false true)) ∧
  Dashboard.selection_ok
    (Dashboard.closeModal
       (Dashboard.mkPage None (Some (Dashboard.mkFile "me.png" "image/png" Scenario.bytes))
       "data:image/png;base64,AQID" false true)) ∧
  (∀ host session w,
      Dashboard.selection_ok
        (fst (Dashboard.updatePfp host session
                (Dashboard.mkPage None (Some (Dashboard.mkFile "me.png" "image/png" Scenario.bytes))
       "data:image/png;base64,AQID" false true) w))).
Proof.
  apply (selection_invariant
           (Dashboard.mkPage None (Some (Dashboard.mkFile "me.png" "image/png" Scenario.bytes))
       "data:image/png;base64,AQID" false true)).
  reflexivity.
Defined.

(** A file input that offers a text file first leaves the selected image in
    place; one that offers another image replaces it. *)
Example selection_kept_or_replaced :
  Dashboard.selectedFile
    (fst (Dashboard.handleImageUpload
            (Some [Dashboard.mkFile "notes.txt" "text/plain" [Byte.x41];
                   Dashboard.mkFile "b.gif" "image/gif" [Byte.x47]])
            (Dashboard.mkPage None (Some (Dashboard.mkFile "me.png" "image/png" Scenario.bytes))
       "data:image/png;base64,AQID" false true)))
  = Some (Dashboard.mkFile "me.png" "image/png" Scenario.bytes) ∧
  Dashboard.selectedFile
    (fst (Dashboard.handleImageUpload
            (Some [Dashboard.mkFile "b.gif" "image/gif" [Byte.x47]])
            (Dashboard.mkPage None (Some (Dashboard.mkFile "me.png" "image/png" Scenario.bytes))
       "data:image/png;base64,AQID" false true)))
  = Some (Dashboard.mkFile "b.gif" "image/gif" [Byte.x47]).
Proof. split; reflexivity. Qed.

Lemma formData_file_field file :
  find is_file_field (Dashboard.formData file)
  = Some (MultiPartData.mk (Some "file") (Some (Dashboard.file_name file))
            (Some (if Path.nonempty (Dashboard.file_type file)
                   then Dashboard.file_type file
                   else "application/octet-stream"))
            (Dashboard.file_bytes file)).
Proof. done. Qed.

(** X17.  When the upload action runs with a selected file and its request
    meets no obstacle on the server, the bytes queued for writing are the
    selected file's, the selection and the preview are cleared, the dialog
    is closed, and the list is fetched again and shows the new record.  The
    world it leaves is the one with the path recorded and the write queued,
    after the turns the event loop takes during the handler. *)
Theorem updatePfp_accepted host session page file w d u :
  Dashboard.selectedFile page = Some file →
  ensure_dir host (upload_dir host (Session.user_id session)) w
  = (Ok tt, fs.set_disk d w) →
  d !! upload_file host (Session.user_id session) = None →
  find (prisma.has_id (Session.user_id session)) (users w) = Some u →
  Dashboard.updatePfp host (Some session) page w
  = (Dashboard.mkPage
       (Some (map redact
                (map (prisma.set_image (Session.user_id session)
                        (image_path host (Session.user_id session))) (users w))))
       None "" false false,
     run_loop (loop host)
       (mkWorld
          (map (prisma.set_image (Session.user_id session)
                  (image_path host (Session.user_id session))) (users w))
          d
          (pending w ++ [(upload_file host (Session.user_id session),
                          Dashboard.file_bytes file)])
          (uncaught w))).
Proof.
  intros Hsel Hd Hfree Hu. unfold Dashboard.updatePfp. rewrite Hsel.
  rewrite (upload_accepted host session _ _ w d u (formData_file_field file))
    by done.
  unfold Dashboard.fetch_ok, Dashboard.fetch_users, list_users, bind,
    prisma.findMany, ret.
  cbn [status_of Nat.leb Nat.ltb andb]. simpl.
  by rewrite run_loop_users.
Qed.

Lemma updatePfp_accepted_witness :
  Dashboard.updatePfp Scenario.host (Some Scenario.session)
    (Dashboard.mkPage None
       (Some (Dashboard.mkFile "me.png" "image/png" Scenario.bytes))
       "data:image/png;base64,AQID" false true)
    Scenario.world
  = (Dashboard.mkPage
       (Some (map redact
                (map (prisma.set_image (Session.user_id Scenario.session)
                        (image_path Scenario.host (Session.user_id Scenario.session)))
                   (users Scenario.world))))
       None "" false false,
     mkWorld
       (map (prisma.set_image (Session.user_id Scenario.session)
               (image_path Scenario.host (Session.user_id Scenario.session)))
          (users Scenario.world))
       (disk Scenario.uploaded)
       (pending Scenario.world
          ++ [(upload_file Scenario.host (Session.user_id Scenario.session),
               Dashboard.file_bytes
                 (Dashboard.mkFile "me.png" "image/png" Scenario.bytes))])
       (uncaught Scenario.world)).
Proof.
  apply (updatePfp_accepted Scenario.host Scenario.session _
           (Dashboard.mkFile "me.png" "image/png" Scenario.bytes)
           Scenario.world (disk Scenario.uploaded) Scenario.u1).
  - reflexivity.
  - vm_compute. reflexivity.
  - vm_compute. reflexivity.
  - reflexivity.
Defined.

(** X18.  When the request of the upload action is refused by the server,
    the page keeps its list, its selection, its preview and the dialog as
    they were, is no longer uploading, and no row of the table has changed. *)
Theorem updatePfp_refused host session page file w :
  Dashboard.selectedFile page = Some file →
  Dashboard.fetch_ok
    (fst (respond (upload host (mkUpload session (Some (Dashboard.formData file)))) w))
  = false →
  fst (Dashboard.updatePfp host session page w)
  = Dashboard.mkPage (Dashboard.users page) (Some file) (Dashboard.imagePreview page)
      false (Dashboard.isModalOpen page) ∧
  users (snd (Dashboard.updatePfp host session page w)) = users w.
Proof.
  intros Hsel Hno. unfold Dashboard.updatePfp. rewrite Hsel.
  pose proof (upload_users host
                (mkUpload session (Some (Dashboard.formData file))) w) as Hkeep.
  destruct (respond _ w) as [r w1]. cbn [fst snd] in *. rewrite Hno.
  split; [done|]. destruct Hkeep as [?|(? & _ & H201 & _)]; [done|].
  unfold Dashboard.fetch_ok in Hno. rewrite H201 in Hno. done.
Qed.

Lemma updatePfp_refused_witness :
  fst (Dashboard.updatePfp Scenario.host None
         (Dashboard.mkPage None
            (Some (Dashboard.mkFile "me.png" "image/png" Scenario.bytes))
            "data:image/png;base64,AQID" true true)
         Scenario.world)
  = Dashboard.mkPage
      (Dashboard.users
         (Dashboard.mkPage None
            (Some (Dashboard.mkFile "me.png" "image/png" Scenario.bytes))
            "data:image/png;base64,AQID" true true))
      (Some (Dashboard.mkFile "me.png" "image/png" Scenario.bytes))
      (Dashboard.imagePreview
         (Dashboard.mkPage None
            (Some (Dashboard.mkFile "me.png" "image/png" Scenario.bytes))
            "data:image/png;base64,AQID" true true))
      false
      (Dashboard.isModalOpen
         (Dashboard.mkPage None
            (Some (Dashboard.mkFile "me.png" "image/png" Scenario.bytes))
            "data:image/png;base64,AQID" true true)) ∧
  users (snd (Dashboard.updatePfp Scenario.host None
                (Dashboard.mkPage None
                   (Some (Dashboard.mkFile "me.png" "image/png" Scenario.bytes))
                   "data:image/png;base64,AQID" true true)
                Scenario.world))
  = users Scenario.world.
Proof.
  apply (updatePfp_refused Scenario.host None _
           (Dashboard.mkFile "me.png" "image/png" Scenario.bytes) Scenario.world).
  - reflexivity.
  - reflexivity.
Defined.

(** X19.  A request sent by the upload action always carries the form and
    its [file] field: with a session, the only 400 it can receive is the
    one for a generated name that is already taken. *)
Theorem updatePfp_request_has_file host session file w :
  status_of (fst (respond (upload host
                             (mkUpload (Some session) (Some (Dashboard.formData file)))) w))
  = 400 →
  fst (respond (upload host (mkUpload (Some session) (Some (Dashboard.formData file)))) w)
  = Failed (H3Error {| statusCode := 400; statusMessage := None;
                       message := Some "Image already exists." |}).
Proof.
  rewrite (upload_with_file host session _ _ w (formData_file_field file)).
  cbn zeta. destruct (ensure_dir _ _ w) as [[[]|e] w1] eqn:Hd.
  - destruct (bool_decide _); [done|]. by destruct (find _ (users w1)).
  - cbn [fst]. by rewrite (ensure_dir_throws _ _ _ _ _ Hd).
Qed.

Lemma updatePfp_request_has_file_witness :
  fst (respond (upload Scenario.host
                  (mkUpload (Some Scenario.session)
                     (Some (Dashboard.formData
                              (Dashboard.mkFile "me.png" "image/png" Scenario.bytes)))))
         (settle true Scenario.uploaded))
  = Failed (H3Error {| statusCode := 400; statusMessage := None;
                       message := Some "Image already exists." |}).
Proof.
  apply updatePfp_request_has_file. vm_compute. reflexivity.
Defined.

(** * Snippets of the guides *)

(** X20.  The route middleware never sends a visitor in circles: the page
    it redirects to is another page, and it lets the visitor through
    there. *)
Theorem middleware_redirect_settles session to_path target :
  AuthMiddleware.auth_global session to_path = AuthMiddleware.NavigateTo target →
  target ≠ to_path ∧
  AuthMiddleware.auth_global session target = AuthMiddleware.Continue.
Proof.
  unfold AuthMiddleware.auth_global. destruct session as [s|].
  - destruct (String.eqb_spec to_path "/auth") as [->|Hne]; [|done].
    intros [= <-]. done.
  - destruct (String.eqb_spec to_path "/auth") as [->|Hne]; [done|].
    simpl. intros [= <-]. split; [done|]. done.
Qed.

Lemma middleware_redirect_settles_witness :
  "/auth" ≠ "/settings" ∧
  AuthMiddleware.auth_global None "/auth" = AuthMiddleware.Continue.
Proof.
  apply (middleware_redirect_settles None "/settings" "/auth"). reflexivity.
Defined.

Lemma serve_documented_run host event k w :
  serve_id event = Some k → k ≠ "" →
  respond (serve_documented host event) w
  = (if truthy_opt_string (recorded_image k w)
     then match disk w !! Path.join [storage_root host; default "" (recorded_image k w)] with
          | None => Failed (createError 404 "File not found")
          | Some (File b) => Stream 200 "application/octet-stream" b
          | Some Dir =>
              Failed (FsError "EISDIR"
                        (Path.join [storage_root host; default "" (recorded_image k w)]))
          end
     else Failed (createError 404 "No image found"), w).
Proof.
  intros Hk Hne. unfold serve_documented, respond. rewrite Hk. simpl.
  unfold truthy_string. apply nonempty_true in Hne. rewrite Hne. simpl.
  unfold bind, prisma.findUnique, fs.existsSync, fs.readStream, recorded_image.
  simpl. destruct (truthy_opt_string _); simpl; [|done].
  set (p := Path.join _).
  destruct (disk w !! p) as [[b|]|] eqn:E; simpl; by rewrite ?E.
Qed.

(** X21.  On a request that carries a session, the serve handler and the
    handler printed in the guide agree whenever the storage root has no
    entry named [null]: same status, same body, and neither changes the
    world. *)
Theorem serve_matches_documented host event s w :
  serve_session event = Some s →
  disk w !! Path.join [storage_root host; "null"] = None →
  status_of (fst (respond (serve host event) w))
  = status_of (fst (respond (serve_documented host event) w)) ∧
  (∀ b, fst (respond (serve host event) w) = Stream 200 "application/octet-stream" b ↔
        fst (respond (serve_documented host event) w)
        = Stream 200 "application/octet-stream" b) ∧
  snd (respond (serve host event) w) = snd (respond (serve_documented host event) w).
Proof.
  intros Hs Hnull.
  destruct (truthy_opt_string (serve_id event)) eqn:Hk.
  2:{ rewrite (serve_no_id host event s) by done.
      unfold serve_documented, respond. rewrite Hk. done. }
  destruct (serve_id event) as [k|] eqn:Hid; [|done].
  assert (k ≠ "") as Hne by by apply nonempty_true.
  rewrite (serve_authenticated host event s k), (serve_documented_run host event k) by done.
  unfold or_else. destruct (recorded_image k w) as [p|]; simpl.
  - unfold truthy_string. destruct (Path.nonempty p); [done|].
    by rewrite Hnull.
  - by rewrite Hnull.
Qed.

Lemma serve_matches_documented_witness :
  status_of (fst (respond (serve Scenario.host
                             (mkServe (Some Scenario.session) (Some "u1")))
                    (settle true Scenario.uploaded)))
  = status_of (fst (respond (serve_documented Scenario.host
                               (mkServe (Some Scenario.session) (Some "u1")))
                      (settle true Scenario.uploaded))) ∧
  (∀ b, fst (respond (serve Scenario.host (mkServe (Some Scenario.session) (Some "u1")))
               (settle true Scenario.uploaded))
        = Stream 200 "application/octet-stream" b ↔
        fst (respond (serve_documented Scenario.host
                        (mkServe (Some Scenario.session) (Some "u1")))
               (settle true Scenario.uploaded))
        = Stream 200 "application/octet-stream" b) ∧
  snd (respond (serve Scenario.host (mkServe (Some Scenario.session) (Some "u1")))
         (settle true Scenario.uploaded))
  = snd (respond (serve_documented Scenario.host
                    (mkServe (Some Scenario.session) (Some "u1")))
           (settle true Scenario.uploaded)).
Proof.
  apply (serve_matches_documented Scenario.host _ Scenario.session).
  - reflexivity.
  - vm_compute. reflexivity.
Defined.

(** ** The directory step, continued *)

Lemma concat_cons_head c l :
  l ≠ [] → String.concat "/" (Path.cons_head c l) = String c (String.concat "/" l).
Proof. destruct l as [|h [|h' t]]; done. Qed.

Lemma concat_split p : String.concat "/" (Path.split p) = p.
Proof.
  induction p as [|c r IH]; [done|]. simpl.
  pose proof (split_nonnil r) as Hne.
  destruct (Path.is_sep c) eqn:Hc.
  - apply Ascii.eqb_eq in Hc as ->.
    destruct (Path.split r) as [|h t] eqn:E; [done|].
    change (String "/" (String.concat "/" (h :: t)) = String "/" r). by rewrite IH.
  - rewrite concat_cons_head by done. by rewrite IH.
Qed.

Lemma ancestors_self p : p ≠ "" → p ∈ fs.ancestors p.
Proof.
  intros Hne. unfold fs.ancestors.
  apply list_elem_of_filter. split; [by apply nonempty_true|].
  apply list_elem_of_fmap. exists (List.length (Path.split p)). split.
  - by rewrite firstn_all, concat_split.
  - apply elem_of_seq. pose proof (split_nonnil p).
    destruct (Path.split p); simpl; [done|lia].
Qed.

Lemma mkdirs_keeps ps d d' p :
  fs.mkdirs ps d = Some d' → d !! p = Some Dir → d' !! p = Some Dir.
Proof.
  intros Hm Hp. destruct (mkdirs_grows ps d d' p Hm) as [->|[? _]]; congruence.
Qed.

Lemma mkdirs_creates ps d d' p :
  fs.mkdirs ps d = Some d' → p ∈ ps → d' !! p = Some Dir.
Proof.
  revert d. induction ps as [|q ps IH]; intros d Hm Hin.
  - by apply elem_of_nil in Hin.
  - simpl in Hm. apply elem_of_cons in Hin as [->|Hin].
    + destruct (d !! q) as [[b|]|] eqn:Hq; [done| |].
      * by eapply mkdirs_keeps.
      * eapply mkdirs_keeps; [done|]. by rewrite lookup_insert_eq.
    + destruct (d !! q) as [[b|]|] eqn:Hq; [done|by eapply IH|by eapply IH].
Qed.

(** X22.  Once the directory step of an upload has succeeded, the user's
    directory exists; where it did not exist before, it is now a directory,
    and so is every directory above it. *)
Theorem ensure_dir_exists host ownerId w w' :
  ensure_dir host (upload_dir host ownerId) w = (Ok tt, w') →
  is_Some (disk w' !! upload_dir host ownerId) ∧
  (disk w !! upload_dir host ownerId = None →
   ∀ p, p ∈ fs.ancestors (upload_dir host ownerId) → disk w' !! p = Some Dir).
Proof.
  unfold ensure_dir, bind, fs.existsSync, fs.mkdirSync, ret.
  destruct (bool_decide _) eqn:Hb; simpl.
  - intros [= <-]. apply bool_decide_eq_true in Hb. split; [done|].
    intros Hnone. rewrite Hnone in Hb. by destruct Hb.
  - destruct (mkdir_refused host); [done|].
    destruct (fs.mkdirs _ _) as [d|] eqn:Hm; [|done].
    intros [= <-]. simpl.
    assert (∀ p, p ∈ fs.ancestors (upload_dir host ownerId) → d !! p = Some Dir) as Hall.
    { intros p Hp. by eapply mkdirs_creates. }
    split; [|done]. rewrite Hall; [done|].
    apply ancestors_self. unfold upload_dir. apply join_nonempty.
Qed.

Lemma ensure_dir_exists_witness :
  is_Some (disk (fs.set_disk (disk Scenario.uploaded) Scenario.world)
             !! upload_dir Scenario.host "u1") ∧
  (disk Scenario.world !! upload_dir Scenario.host "u1" = None →
   ∀ p, p ∈ fs.ancestors (upload_dir Scenario.host "u1") →
        disk (fs.set_disk (disk Scenario.uploaded) Scenario.world) !! p = Some Dir).
Proof.
  apply (ensure_dir_exists Scenario.host "u1" Scenario.world
           (fs.set_disk (disk Scenario.uploaded) Scenario.world)).
  vm_compute. reflexivity.
Defined.
